(** * importfindata: the bossa.pl price importer ([main.py])

    A shallow embedding of [main.py] and the properties of its three
    parts: the manifest parser ([download_polish_funds_list]), the quote
    extractor ([MstFun.get_fund_price]) and the reconciliation driver
    (the [__main__] block).

    The program is Python 2 ([urllib.urlopen], [str.decode]); the library
    calls it makes ([re], [datetime.strptime], [decimal], [pandas],
    [zipfile], [gnucash]) are modelled next to the code that uses them,
    each with a comment saying which behaviour of the library is kept. *)

From Stdlib Require Import ZArith NArith QArith Qabs Qpower Ascii String Lia.
From stdpp Require Import base option list gmap strings.

Local Open Scope Z_scope.
#[local] Set Warnings "-clear-no-such-hyp".

(** ** Text

    Python [str]/[unicode] values are lists of characters. *)

Definition txt (s : string) : list ascii := list_ascii_of_string s.

Definition code (a : ascii) : nat := nat_of_ascii a.

(** A character class is a predicate on characters. *)
Definition cls : Type := ascii → bool.

(** [\d] without [re.UNICODE]: [0-9]. *)
Definition is_digit : cls := λ a, ((48 <=? code a) && (code a <=? 57))%nat.

(** [\s] without [re.UNICODE]: [ \t\n\r\f\v]. *)
Definition is_space : cls :=
  λ a, ((code a =? 32) || ((9 <=? code a) && (code a <=? 13)))%nat.

(** [\S]. *)
Definition not_space : cls := λ a, negb (is_space a).

(** [.] without [re.DOTALL]: anything but a newline. *)
Definition not_newline : cls := λ a, negb (code a =? 10)%nat.

Definition chr (c : ascii) : cls := λ a, Ascii.eqb a c.

(** [[lo-hi]]. *)
Definition range (lo hi : ascii) : cls :=
  λ a, ((code lo <=? code a) && (code a <=? code hi))%nat.

Definition digit_val (a : ascii) : Z := Z.of_nat (code a) - 48.

(** [int(s)] on a run of digits, possibly after blanks ([int(' 5') = 5]). *)
Definition int_of (s : list ascii) : Z :=
  fold_left (λ acc a, if is_digit a then 10 * acc + digit_val a else acc) s 0.

(** ** Exceptions and results *)

Inductive exn : Type :=
  | Exception (msg : list ascii)
      (* raise Exception(msg) *)
  | HttpStatus (what : list ascii) (status : Z)
      (* 'The url request for {what} has not returned OK but: {status}.' *)
  | Wrapped (msg : list ascii) (cause : exn)
      (* raise Exception(msg, e) *)
  | IOError
  | UnicodeDecodeError
  | ValueError (msg : list ascii)
      (* [msg] is the fixed part of Python's message *)
  | TypeError
  | KeyError (key : list ascii)
  | IndexError
  | ParserError
  | BadZipfile
  | InvalidOperation
  | Overflow
  | OverflowError
  | BackendError.

Inductive result (A : Type) : Type :=
  | Ok (a : A)
  | Raise (e : exn).
Arguments Ok {A} a.
Arguments Raise {A} e.

Global Instance result_ret : MRet result := λ A a, Ok a.
Global Instance result_bind : MBind result :=
  λ A B f m, match m with Ok a => f a | Raise e => Raise e end.

Definition is_Ok {A} (r : result A) : Prop := ∃ a, r = Ok a.

(** ** Regular expressions ([re.match])

    The patterns of the program (its own [date_file_name_pat], and the
    patterns [strptime] builds for the formats the program passes) are
    sequences of these items.  [run] is the backtracking matcher of
    Python's [re]: repetitions are greedy and give characters back one at a
    time, alternatives are tried left to right, and the first overall
    match wins.  It returns the text each item matched, in order, so a
    capture group is the concatenation of the pieces of its items. *)

Inductive item : Type :=
  | One (c : cls)                    (* one character of the class *)
  | Many (c : cls)                   (* c+ *)
  | Any (c : cls)                    (* c* *)
  | Alt (alts : list (list cls))     (* (a|b|...), fixed-width alternatives *)
  | Eol.                             (* $ *)

Definition pieces : Type := list (list ascii).

(** Greedy [c*] followed by the continuation [k]. *)
Fixpoint star (c : cls) (k : list ascii → option pieces) (s : list ascii)
  : option pieces :=
  let stop := ps ← k s; Some ([] :: ps) in
  match s with
  | a :: s' =>
      if c a then
        match star c k s' with
        | Some (u :: ps) => Some ((a :: u) :: ps)
        | _ => stop
        end
      else stop
  | [] => stop
  end.

Fixpoint seq_match (cs : list cls) (s : list ascii)
  : option (list ascii * list ascii) :=
  match cs, s with
  | [], _ => Some ([], s)
  | c :: cs', a :: s' =>
      if c a then '(u, r) ← seq_match cs' s'; Some (a :: u, r) else None
  | _ :: _, [] => None
  end.

Fixpoint alt (alts : list (list cls)) (k : list ascii → option pieces)
  (s : list ascii) : option pieces :=
  match alts with
  | [] => None
  | cs :: rest =>
      match seq_match cs s with
      | Some (u, r) =>
          match k r with
          | Some ps => Some (u :: ps)
          | None => alt rest k s
          end
      | None => alt rest k s
      end
  end.

Definition newline : ascii := "010"%char.

(** [$] without [re.MULTILINE]: the end of the string, or just before a
    newline that ends the string. *)
Definition at_eol (s : list ascii) : bool :=
  match s with
  | [] => true
  | [a] => Ascii.eqb a newline
  | _ => false
  end.

Fixpoint run (its : list item) (s : list ascii) : option pieces :=
  match its with
  | [] => Some []
  | One c :: r =>
      match s with
      | a :: s' => if c a then ps ← run r s'; Some ([a] :: ps) else None
      | [] => None
      end
  | Many c :: r =>
      match s with
      | a :: s' =>
          if c a then
            match star c (run r) s' with
            | Some (u :: ps) => Some ((a :: u) :: ps)
            | _ => None
            end
          else None
      | [] => None
      end
  | Any c :: r => star c (run r) s
  | Alt alts :: r => alt alts (run r) s
  | Eol :: r => if at_eol s then ps ← run r s; Some ([] :: ps) else None
  end.

(** ** Dates ([datetime.date], [datetime.strptime]) *)

Record date : Type := mkdate { year : Z; month : Z; day : Z }.

Global Instance date_eq_dec : EqDecision date.
Proof. solve_decision. Defined.

(** Python orders dates by (year, month, day). *)
Definition date_ltb (a b : date) : bool :=
  (year a <? year b)
  || ((year a =? year b)
      && ((month a <? month b)
          || ((month a =? month b) && (day a <? day b)))).

(** [a >= b]. *)
Definition date_geb (a b : date) : bool := negb (date_ltb a b).

Definition date_lt (a b : date) : Prop :=
  year a < year b
  ∨ (year a = year b
     ∧ (month a < month b ∨ (month a = month b ∧ day a < day b))).

Definition is_leap (y : Z) : bool :=
  (y mod 4 =? 0) && (negb (y mod 100 =? 0) || (y mod 400 =? 0)).

Definition days_in_month (y m : Z) : Z :=
  if m =? 2 then (if is_leap y then 29 else 28)
  else if (m =? 4) || (m =? 6) || (m =? 9) || (m =? 11) then 30
  else 31.

Definition valid_date (y m d : Z) : bool :=
  (1 <=? y) && (y <=? 9999) && (1 <=? m) && (m <=? 12)
  && (1 <=? d) && (d <=? days_in_month y m).

(** The regular expressions [_strptime.TimeRE] has for the directives the
    program uses: [%Y] is [\d\d\d\d], [%m] is [1[0-2]|0[1-9]|[1-9]] and
    [%d] is [3[0-1]|[1-2]\d|0[1-9]|[1-9]| [1-9]]. *)
Definition re_Y : list item :=
  [One is_digit; One is_digit; One is_digit; One is_digit].

Definition re_m : item :=
  Alt [ [chr "1"; range "0" "2"]; [chr "0"; range "1" "9"]; [range "1" "9"] ].

Definition re_d : item :=
  Alt [ [chr "3"; range "0" "1"]; [range "1" "2"; is_digit];
        [chr "0"; range "1" "9"]; [range "1" "9"];
        [chr " "; range "1" "9"] ].

(** [strptime(s, fmt)] for a format made of [%Y], [sep], [%m], [sep], [%d]:
    the format's pattern must match a prefix of [s], nothing may remain
    after the match, and the three numbers must name a calendar day.  The
    patterns keep the month within 1..12 and the day within 1..31, so
    what [datetime] can still refuse is the year 0 and a day the month
    does not have; it checks the year first. *)
Definition strptime (sep : list item) (s : list ascii) : result date :=
  match run (re_Y ++ sep ++ [re_m] ++ sep ++ [re_d]) s with
  | None => Raise (ValueError (txt "time data does not match format"))
  | Some ps =>
      if (length (concat ps) =? length s)%nat then
        let y := int_of (concat (take 4 ps)) in
        let m := int_of (nth (4 + length sep) ps []) in
        let d := int_of (nth (5 + 2 * length sep) ps []) in
        if valid_date y m d then Ok (mkdate y m d)
        else if y <? 1 then Raise (ValueError (txt "year is out of range"))
        else Raise (ValueError (txt "day is out of range for month"))
      else Raise (ValueError (txt "unconverted data remains"))
  end.

(** ['%Y-%m-%d'] *)
Definition strptime_Y_m_d : list ascii → result date := strptime [One (chr "-")].

(** ['%Y%m%d'] *)
Definition strptime_Ymd : list ascii → result date := strptime [].

(** ** The manifest parser ([download_polish_funds_list]) *)

(** The line boundaries of [unicode.splitlines] that ASCII text can hold:
    [\n], [\r], [\r\n], [\v], [\f], [\x1c], [\x1d] and [\x1e]. *)
Definition is_linebreak : cls :=
  λ a, (((10 <=? code a) && (code a <=? 13))
        || ((28 <=? code a) && (code a <=? 30)))%nat.

Fixpoint splitlines_from (cur : list ascii) (s : list ascii)
  : list (list ascii) :=
  match s with
  | [] => match cur with [] => [] | _ => [rev cur] end
  | a :: s' =>
      if is_linebreak a then
        rev cur ::
          match s' with
          | b :: s'' =>
              if ((code a =? 13) && (code b =? 10))%nat
              then splitlines_from [] s''
              else splitlines_from [] s'
          | [] => []
          end
      else splitlines_from (a :: cur) s'
  end.

(** [s.splitlines()]; [cur] above is the current line, last character
    first. *)
Definition splitlines (s : list ascii) : list (list ascii) :=
  splitlines_from [] s.

(** [lines[3:-2]] *)
Definition body_lines (lines : list (list ascii)) : list (list ascii) :=
  drop 3 (take (length lines - 2) lines).

(** [re.compile('(\d\d\d\d-\d\d-\d\d)' + '\s+\S+' + '\s+\S+\s+\S+' +
                '\s+(\S+)\s+(\S.*\S)\s*$')] *)
Definition date_file_name_pat : list item :=
  [ One is_digit; One is_digit; One is_digit; One is_digit; One (chr "-");
    One is_digit; One is_digit; One (chr "-"); One is_digit; One is_digit ]
  ++ [ Many is_space; Many not_space ]
  ++ [ Many is_space; Many not_space; Many is_space; Many not_space ]
  ++ [ Many is_space; Many not_space; Many is_space;
       One not_space; Any not_newline; One not_space; Any is_space; Eol ].

(** [m = date_file_name_pat.match(l)] and [m.groups()]: group 1 is the text
    of the first ten items, group 2 of item 17, group 3 of items 19-21. *)
Definition pat_match (l : list ascii)
  : option (list ascii * list ascii * list ascii) :=
  ps ← run date_file_name_pat l;
  Some (concat (take 10 ps), nth 17 ps [], concat (take 3 (drop 19 ps))).

(** ['Could not extract information from' + 'lst\'s line: {0}'.format(l)] *)
Definition line_error (l : list ascii) : exn :=
  Exception (txt "Could not extract information fromlst's line: " ++ l).

(** The dictionary from a fund's name to its (file, date); the date stands
    for the [datetime] at midnight that [strptime] returns. *)
Abbreviation manifest := (gmap (list ascii) (list ascii * date)).

(** One turn of the loop over the lines. *)
Definition add_line (fund_to_file : manifest) (l : list ascii)
  : result manifest :=
  match pat_match l with
  | None => Raise (line_error l)
  | Some (date, file, name) =>
      dt ← strptime_Y_m_d date;
      Ok (<[name := (file, dt)]> fund_to_file)
  end.

Fixpoint add_lines (fund_to_file : manifest) (ls : list (list ascii))
  : result manifest :=
  match ls with
  | [] => Ok fund_to_file
  | l :: ls' => m ← add_line fund_to_file l; add_lines m ls'
  end.

(** The loop of [download_polish_funds_list] on the decoded text. *)
Definition parse (mstfun_lst : list ascii) : result manifest :=
  add_lines ∅ (body_lines (splitlines mstfun_lst)).

(** What [urllib.urlopen(url)] gives: [getcode()] and [read()]. *)
Record response : Type := { getcode : Z; read : list ascii }.

(** [bytes.decode('ASCII')] *)
Definition decode_ASCII (b : list ascii) : result (list ascii) :=
  if forallb (λ a, code a <? 128)%nat b then Ok b else Raise UnicodeDecodeError.

Definition download_polish_funds_list (urlopen : result response)
  : result manifest :=
  mstfun ← urlopen;
  if getcode mstfun =? 200 then
    mstfun_lst ← decode_ASCII (read mstfun);
    parse mstfun_lst
  else Raise (HttpStatus (txt "mstfun.lst") (getcode mstfun)).

(** ** Decimal numbers ([decimal.Decimal])

    A finite decimal is (-1)^sign * coef * 10^exp; the coefficient and the
    exponent are unbounded, as in Python.  The payload of a NaN is not
    kept. *)

Inductive Decimal : Type :=
  | Fin (sign : bool) (coef : N) (exp : Z)
  | Inf (sign : bool)
  | NaN (signaling : bool).

(** The default context: [prec=28], [rounding=ROUND_HALF_EVEN],
    [Emin=-999999999], [Emax=999999999], and the traps [Overflow],
    [InvalidOperation] and [DivisionByZero]. *)
Definition prec : Z := 28.
Definition Emax : Z := 999999999.
Definition Emin : Z := -999999999.
Definition Etiny : Z := Emin - prec + 1.
Definition Etop : Z := Emax - prec + 1.

Fixpoint span (c : cls) (s : list ascii) : list ascii * list ascii :=
  match s with
  | a :: s' =>
      if c a then let '(u, r) := span c s' in (a :: u, r) else ([], s)
  | [] => ([], [])
  end.

(** [s.strip()] *)
Definition strip (s : list ascii) : list ascii :=
  rev (span is_space (rev (span is_space s).2)).2.

Definition lower (a : ascii) : ascii :=
  if ((65 <=? code a) && (code a <=? 90))%nat
  then ascii_of_nat (code a + 32) else a.

Definition text_eqb (s t : list ascii) : bool := bool_decide (s = t).

(** The tail [(E(?P<exp>[-+]?\d+))?\Z] of the number syntax. *)
Definition exponent_of (s : list ascii) : option Z :=
  match s with
  | [] => Some 0
  | a :: r =>
      if chr "e" (lower a) then
        let '(neg, ds) :=
          match r with
          | b :: r' =>
              if chr "-" b then (true, r')
              else if chr "+" b then (false, r') else (false, r)
          | [] => (false, r)
          end in
        match ds with
        | [] => None
        | _ :: _ =>
            if forallb is_digit ds
            then Some (if neg then - int_of ds else int_of ds)
            else None
        end
      else None
  end.

(** [Inf], [Infinity], and [NaN] or [sNaN] followed by digits, in any
    letter case. *)
Definition special_of (sign : bool) (s : list ascii) : result Decimal :=
  let s := map lower s in
  if text_eqb s (txt "inf") || text_eqb s (txt "infinity") then Ok (Inf sign)
  else if text_eqb (take 3 s) (txt "nan") && forallb is_digit (drop 3 s)
  then Ok (NaN false)
  else if text_eqb (take 4 s) (txt "snan") && forallb is_digit (drop 4 s)
  then Ok (NaN true)
  else Raise InvalidOperation.

(** [decimal.Decimal(value)] for a string: the text is stripped and must
    be, after an optional sign, digits with an optional point and an
    optional exponent, or an infinity, or a NaN.  The coefficient is
    [int(intpart + fracpart)] and the exponent [exp - len(fracpart)]: no
    digit is dropped and the context is not consulted. *)
Definition Decimal_of_str (value : list ascii) : result Decimal :=
  let s := strip value in
  let '(sign, s) :=
    match s with
    | a :: r =>
        if chr "-" a then (true, r)
        else if chr "+" a then (false, r) else (false, s)
    | [] => (false, s)
    end in
  let '(intpart, s1) := span is_digit s in
  let '(fracpart, s2) :=
    match s1 with
    | a :: r => if chr "." a then span is_digit r else ([], s1)
    | [] => ([], s1)
    end in
  match intpart ++ fracpart with
  | [] => special_of sign s
  | _ :: _ =>
      match exponent_of s2 with
      | Some e =>
          Ok (Fin sign (Z.to_N (int_of (intpart ++ fracpart)))
                (e - Z.of_nat (length fracpart)))
      | None => Raise InvalidOperation
      end
  end.

(** [len(self._int)] for a coefficient that is not zero. *)
Fixpoint ndigits_fuel (fuel : nat) (n : N) : Z :=
  match fuel with
  | O => 0
  | S f => if (n =? 0)%N then 0 else 1 + ndigits_fuel f (n / 10)%N
  end.

Definition ndigits (n : N) : Z := ndigits_fuel (N.size_nat n) n.

(** [c / 10^k] to the nearest integer, ties to the even one
    ([ROUND_HALF_EVEN]). *)
Definition round_half_even (c : N) (k : Z) : N :=
  let p := (10 ^ Z.to_N k)%N in
  let q := (c / p)%N in
  match (2 * (c mod p) ?= p)%N with
  | Lt => q
  | Gt => (q + 1)%N
  | Eq => if N.even q then q else (q + 1)%N
  end.

(** [Decimal._fix]: the rounding of an exact finite result to the
    context. *)
Definition fix_ (s : bool) (c : N) (e : Z) : result Decimal :=
  if (c =? 0)%N then Ok (Fin s 0 (Z.min (Z.max e Etiny) Emax))
  else
    let exp_min := ndigits c + e - prec in
    if Etop <? exp_min then Raise Overflow
    else
      let exp_min := Z.max exp_min Etiny in
      if e <? exp_min then
        let c' := round_half_even c (exp_min - e) in
        if prec <? ndigits c' then
          if Etop <? exp_min + 1 then Raise Overflow
          else Ok (Fin s (c' / 10)%N (exp_min + 1))
        else Ok (Fin s c' exp_min)
      else Ok (Fin s c e).

(** [self * other] for an integer [other] ([Decimal.__mul__] after
    [_convert_other]). *)
Definition Decimal_mul_int (self : Decimal) (other : Z) : result Decimal :=
  match self with
  | NaN true => Raise InvalidOperation
  | NaN false => Ok (NaN false)
  | Inf s =>
      if other =? 0 then Raise InvalidOperation
      else Ok (Inf (xorb s (other <? 0)))
  | Fin s c e => fix_ (xorb s (other <? 0)) (c * Z.to_N (Z.abs other))%N e
  end.

(** [self.to_integral()] *)
Definition to_integral (self : Decimal) : result Decimal :=
  match self with
  | NaN true => Raise InvalidOperation
  | NaN false => Ok (NaN false)
  | Inf s => Ok (Inf s)
  | Fin s c e =>
      if 0 <=? e then Ok (Fin s c e)
      else Ok (Fin s (round_half_even c (- e)) 0)
  end.

(** [int(self)] *)
Definition int_of_Decimal (self : Decimal) : result Z :=
  match self with
  | NaN _ => Raise (ValueError (txt "Cannot convert NaN to integer"))
  | Inf _ => Raise OverflowError
  | Fin s c e =>
      let m := if 0 <=? e then Z.of_N c * 10 ^ e
               else Z.of_N (c / 10 ^ Z.to_N (- e))%N in
      Ok (if s then - m else m)
  end.

Definition signed (s : bool) (x : Z) : Z := if s then - x else x.

(** The rational number a finite decimal stands for. *)
Definition Decimal_value (s : bool) (c : N) (e : Z) : Q :=
  inject_Z (signed s (Z.of_N c)) * Qpower (inject_Z 10) e.

(** [n] is [x] rounded to an integral value: the nearest integer, the
    even one when two are equally near. *)
Definition rounds_to (x : Q) (n : Z) : Prop :=
  (Qabs (inject_Z n - x) < 1 # 2)%Q
  ∨ ((Qabs (inject_Z n - x) == 1 # 2)%Q ∧ Z.even n = true).

(** ** The price files ([zipfile], [pandas])

    An archive member is modelled as pandas tokenises it: the labels of
    its header, in the order of the file, and its records.  A cell read
    with [dtype=str] is the text as written, or a missing value (the float
    NaN) where the field is empty or one of pandas' NA markers. *)

Inductive cell : Type :=
  | Str (s : list ascii)
  | Missing.

Record DataFrame : Type :=
  { columns : list (list ascii); rows : list (list cell) }.

Inductive member : Type :=
  | Garbled                     (* content [read_csv] cannot tokenise *)
  | Csv (table : DataFrame).

(** The opened [ZipFile]: its members by name. *)
Abbreviation archive := (gmap (list ascii) member).

(** [ZipFile.open(name)] *)
Definition zip_open (z : archive) (name : list ascii) : result member :=
  match z !! name with
  | Some f => Ok f
  | None => Raise (KeyError name)
  end.

(** The labels of the header that [usecols] selects.  pandas renames a
    label that the header repeats ([label.1], [label.2], ...), and no
    label the program asks for has such a name: a column is selected when
    its label is listed in [usecols] and is not the label of a column
    before it ([seen]). *)
Fixpoint labels_from (usecols seen cols : list (list ascii))
  : list (list ascii) :=
  match cols with
  | [] => []
  | c :: cs =>
      if bool_decide (c ∈ usecols ∧ c ∉ seen)
      then c :: labels_from usecols (c :: seen) cs
      else labels_from usecols (c :: seen) cs
  end.

(** The cells of one record under the selected columns; a short record is
    padded with missing values. *)
Fixpoint select_from (usecols seen cols : list (list ascii))
  (row : list cell) : list cell :=
  match cols with
  | [] => []
  | c :: cs =>
      let x := match row with x :: _ => x | [] => Missing end in
      let row' := match row with _ :: r => r | [] => [] end in
      if bool_decide (c ∈ usecols ∧ c ∉ seen)
      then x :: select_from usecols (c :: seen) cs row'
      else select_from usecols (c :: seen) cs row'
  end.

Definition select (usecols cols : list (list ascii)) (row : list cell)
  : list cell :=
  select_from usecols [] cols row.

(** [pd.read_csv(f, usecols=usecols, dtype=str)].  Every label of
    [usecols] must be in the header.  The frame keeps the selected columns
    in the order of the file: pandas ignores the order of the elements of
    [usecols] (its documentation: "Element order is ignored, so
    usecols=[0, 1] is the same as [1, 0]"). *)
Definition read_csv (f : member) (usecols : list (list ascii))
  : result DataFrame :=
  match f with
  | Garbled => Raise ParserError
  | Csv t =>
      if forallb (λ u, bool_decide (u ∈ columns t)) usecols then
        Ok {| columns := labels_from usecols [] (columns t);
              rows := map (select usecols (columns t)) (rows t) |}
      else Raise (ValueError (txt "Usecols do not match columns"))
  end.

(** [data.columns = labels]: the labels are replaced by position. *)
Definition set_columns (data : DataFrame) (labels : list (list ascii))
  : result DataFrame :=
  if (length labels =? length (columns data))%nat
  then Ok {| columns := labels; rows := rows data |}
  else Raise (ValueError (txt "Length mismatch")).

(** [data.iloc[-1]]: the last record, with the labels. *)
Definition iloc_last (data : DataFrame)
  : result (list (list ascii) * list cell) :=
  match last (rows data) with
  | Some r => Ok (columns data, r)
  | None => Raise IndexError
  end.

(** [row.label] *)
Fixpoint field (labels : list (list ascii)) (r : list cell)
  (label : list ascii) : cell :=
  match labels, r with
  | l :: ls, x :: r' => if bool_decide (l = label) then x else field ls r' label
  | _, _ => Missing
  end.

(** [decimal.Decimal(x)] for a cell: a missing value is a float NaN, which
    converts to the decimal NaN. *)
Definition Decimal_of (x : cell) : result Decimal :=
  match x with
  | Str s => Decimal_of_str s
  | Missing => Ok (NaN false)
  end.

(** [datetime.datetime.strptime(x, '%Y%m%d').date()] for a cell. *)
Definition date_of (x : cell) : result date :=
  match x with
  | Str s => strptime_Ymd s
  | Missing => Raise TypeError
  end.

(** ** The quote extractor ([MstFun]) *)

Record MstFun : Type :=
  { fund_to_file_date : manifest; mstfun : archive }.

(** The body of the answer to the request for [mstfun.zip]: an archive, or
    bytes that [ZipFile] rejects. *)
Record zip_response : Type :=
  { zip_getcode : Z; zip_body : option archive }.

(** [MstFun.__enter__] *)
Definition MstFun_enter (urlopen_lst : result response)
  (urlopen_zip : result zip_response) : result MstFun :=
  match download_polish_funds_list urlopen_lst with
  | Raise e =>
      Raise (Wrapped (txt "Could not download list of available funds.") e)
  | Ok m =>
      mstfun_zip ← urlopen_zip;
      if zip_getcode mstfun_zip =? 200 then
        match zip_body mstfun_zip with
        | Some z => Ok {| fund_to_file_date := m; mstfun := z |}
        | None => Raise BadZipfile
        end
      else Raise (HttpStatus (txt "mstfun.zip") (zip_getcode mstfun_zip))
  end.

Definition DTYYYYMMDD : list ascii := txt "<DTYYYYMMDD>".
Definition CLOSE : list ascii := txt "<CLOSE>".

(** [MstFun.get_fund_price]: [Ok None] is the [None] it returns for a name
    the manifest does not have. *)
Definition get_fund_price (self : MstFun) (name : list ascii)
  : result (option (Decimal * date)) :=
  match fund_to_file_date self !! name with
  | None => Ok None
  | Some (filename, date) =>
      fundfile ← zip_open (mstfun self) filename;
      data ← read_csv fundfile [DTYYYYMMDD; CLOSE];
      data ← set_columns data [txt "date"; txt "price"];
      '(labels, last_row) ← iloc_last data;
      price ← Decimal_of (field labels last_row (txt "price"));
      day ← date_of (field labels last_row (txt "date"));
      Ok (Some (price, day))
  end.

(** ** The ledger ([gnucash])

    The book of the session, as far as the program uses it.  A price is an
    object with an identity: the program holds references to prices, and
    [prices] is the store that maps a reference to the fields of its
    object.  [pricedb] lists the references the price database holds, in
    the order they were added.  [get_time] returns a [datetime.date]. *)

Record GncCommodity : Type :=
  { namespace : list ascii; mnemonic : list ascii; fullname : list ascii }.

Global Instance GncCommodity_eq_dec : EqDecision GncCommodity.
Proof. solve_decision. Defined.

Record gnc_numeric : Type := { num : Z; denom : Z }.

Record GncPrice : Type :=
  { commodity : GncCommodity; currency : GncCommodity;
    time : date; value : gnc_numeric }.

Record Book : Type :=
  { prices : gmap nat GncPrice;
    pricedb : list nat;
    commodity_table : list GncCommodity }.

(** [comm_table.lookup(namespace, mnemonic)] *)
Definition table_lookup (b : Book) (ns mn : list ascii)
  : option GncCommodity :=
  head (filter (λ c, namespace c = ns ∧ mnemonic c = mn) (commodity_table b)).

(** [comm_table.get_commodities(namespace)] *)
Definition get_commodities (b : Book) (ns : list ascii)
  : list GncCommodity :=
  filter (λ c, namespace c = ns) (commodity_table b).

Definition is_price_of (b : Book) (cmdt cur : GncCommodity) (p : nat)
  : bool :=
  match prices b !! p with
  | Some r => bool_decide (commodity r = cmdt ∧ currency r = cur)
  | None => false
  end.

Definition time_of (b : Book) (p : nat) : date :=
  match prices b !! p with
  | Some r => time r
  | None => mkdate 0 0 0
  end.

Fixpoint newest (b : Book) (ps : list nat) : option nat :=
  match ps with
  | [] => None
  | p :: ps' =>
      match newest b ps' with
      | Some q => if date_ltb (time_of b p) (time_of b q) then Some q else Some p
      | None => Some p
      end
  end.

(** [pdb.lookup_latest(cmdt, cur)]: the newest of the prices of [cmdt] in
    [cur] that the database holds, [None] when it holds none or when
    there is no currency. *)
Definition lookup_latest (b : Book) (cmdt : GncCommodity)
  (cur : option GncCommodity) : option nat :=
  match cur with
  | Some cur => newest b (filter (λ p, is_price_of b cmdt cur p) (pricedb b))
  | None => None
  end.

(** ** The reconciliation driver ([__main__]) *)

(** What the program prints. *)
Inductive report : Type :=
  | Usage
  | SkippingNoPrices (name : list ascii)
      (* 'Skipping {0}, because there are no price entries in gnucash
         denominated in PLN.' *)
  | SkippingNotAvailable (name : list ascii)
      (* 'Skipping {0}, because its price is not available on Bossa.pl.' *)
  | SkippingNotOlder (name : list ascii) (latest reference : date)
      (* 'Skipping {0}, because its latest price is not older ({1}) than
         reference ({2}).' *)
  | Updating (name : list ascii) (price : Decimal) (day : date).
      (* 'Updating {0} with price {1} at {2}.' *)

(** What the run does that can be seen from outside, in order. *)
Inductive event : Type :=
  | Print (r : report)
  | AddPrice (p : nat)          (* pdb.add_price(p) *)
  | SessionSave                 (* session.save() *)
  | SessionEnd                  (* session.end() *)
  | SessionDestroy.             (* session.destroy() *)

Record state : Type := { book : Book; log : list event }.

(** Statements: they change the state and return or raise. *)
Definition M (A : Type) : Type := state → result A * state.

Global Instance M_ret : MRet M := λ A a st, (Ok a, st).
Global Instance M_bind : MBind M :=
  λ A B f m st,
    match m st with
    | (Ok a, st') => f a st'
    | (Raise e, st') => (Raise e, st')
    end.

Definition lift {A} (r : result A) : M A := λ st, (r, st).

Definition emit (e : event) : M unit :=
  λ st, (Ok (), {| book := book st; log := log st ++ [e] |}).

Definition print (r : report) : M unit := emit (Print r).

Definition with_book {A} (f : Book → A) : M A := λ st, (Ok (f (book st)), st).

Definition set_prices (f : gmap nat GncPrice → gmap nat GncPrice) : M unit :=
  λ st,
    (Ok (),
     {| book := {| prices := f (prices (book st));
                   pricedb := pricedb (book st);
                   commodity_table := commodity_table (book st) |};
        log := log st |}).

(** [p.get_time()] and [p.get_value()] *)
Definition get_price (p : nat) : M GncPrice :=
  λ st,
    match prices (book st) !! p with
    | Some r => (Ok r, st)
    | None => (Raise BackendError, st)
    end.

(** [p.clone(book)]: a new price object with the fields of [p]; it is in
    no price database until it is added to one. *)
Definition clone (p : nat) : M nat :=
  r ← get_price p;
  q ← with_book (λ b, fresh (dom (prices b)));
  set_prices (insert q r);;
  mret q.

(** [p.set_time(t)] *)
Definition set_time (p : nat) (t : date) : M unit :=
  set_prices
    (alter (λ r, {| commodity := commodity r; currency := currency r;
                    time := t; value := value r |}) p).

(** [p.set_value(v)] *)
Definition set_value (p : nat) (v : gnc_numeric) : M unit :=
  set_prices
    (alter (λ r, {| commodity := commodity r; currency := currency r;
                    time := time r; value := v |}) p).

(** [pdb.add_price(p)] *)
Definition add_price (p : nat) : M unit :=
  λ st,
    (Ok (),
     {| book := {| prices := prices (book st);
                   pricedb := pricedb (book st) ++ [p];
                   commodity_table := commodity_table (book st) |};
        log := log st ++ [AddPrice p] |}).

(** [(price * denom).to_integral()], stored in the integer field [v.num]. *)
Definition to_num (price : Decimal) (denom : Z) : result Z :=
  x ← Decimal_mul_int price denom;
  y ← to_integral x;
  int_of_Decimal y.

Fixpoint for_each {A} (body : A → M unit) (xs : list A) : M unit :=
  match xs with
  | [] => mret ()
  | x :: xs' => body x;; for_each body xs'
  end.

Section Driver.

(** [unidecode(name.decode('utf8'))]: the ASCII transliteration of a
    commodity's name, the function of the [unidecode] package. *)
Variable unidecode : list ascii → list ascii.

(** The body of the loop over the commodities; returning is the
    [continue] of the source. *)
Definition reconcile (mstfun : MstFun) (cur : option GncCommodity)
  (cmdt : GncCommodity) : M unit :=
  pl ← with_book (λ b, lookup_latest b cmdt cur);
  match pl with
  | None => print (SkippingNoPrices (fullname cmdt))
  | Some pl =>
      quote ← lift (get_fund_price mstfun (unidecode (fullname cmdt)));
      match quote with
      | None => print (SkippingNotAvailable (fullname cmdt))
      | Some (price, day) =>
          old ← get_price pl;
          if date_geb (time old) day then
            print (SkippingNotOlder (fullname cmdt) (time old) day)
          else
            print (Updating (fullname cmdt) price day);;
            p_new ← clone pl;          (* p_new = pl.clone(book), and its
                                          wrapping in a GncPrice *)
            let p_new := pl in         (* p_new = pl *)
            set_time p_new day;;
            r ← get_price p_new;
            let v := value r in        (* v = p_new.get_value() *)
            n ← lift (to_num price (denom v));
            let v := {| num := n; denom := denom v |} in
            set_value p_new v;;
            add_price p_new
      end
  end.

(** The answers of the outside world to one run. *)
Record world : Type :=
  { session : result Book;              (* Session(url, True, False, False) *)
    urlopen_lst : result response;      (* urlopen(MSTFUN_LST_URL) *)
    urlopen_zip : result zip_response;  (* urlopen(MSTFUN_ZIP_URL) *)
    save_error : option exn }.          (* what session.save() raises *)

(** [session.save()] *)
Definition session_save (w : world) : M unit :=
  emit SessionSave;;
  match save_error w with
  | Some e => lift (Raise e)
  | None => mret ()
  end.

(** The [try] block. *)
Definition try_block (w : world) : M unit :=
  cur ← with_book (λ b, table_lookup b (txt "CURRENCY") (txt "PLN"));
  commodities ← with_book (λ b, get_commodities b (txt "FUND"));
  mstfun ← lift (MstFun_enter (urlopen_lst w) (urlopen_zip w));
  for_each (reconcile mstfun cur) commodities;;
  session_save w.

(** The [finally] block. *)
Definition finally_block : M unit := emit SessionEnd;; emit SessionDestroy.

(** How the process ends. *)
Inductive outcome : Type :=
  | Exit (status : Z)
  | Uncaught (e : exn).

(** The program: its end, what it did, and the book it leaves in the
    session, if it opened one. *)
Definition main (argv : list (list ascii)) (w : world)
  : outcome * list event * option Book :=
  if (length argv <? 2)%nat then (Exit 1, [Print Usage], None)
  else
    match session w with
    | Raise e => (Uncaught e, [], None)
    | Ok b =>
        let '(r, st) := try_block w {| book := b; log := [] |} in
        let '(r', st') := finally_block st in
        (match r, r' with
         | Ok _, Ok _ => Exit 0
         | Raise e, _ => Uncaught e
         | Ok _, Raise e => Uncaught e
         end, log st', Some (book st'))
    end.

End Driver.

(** ** A run on small data

    The scenario of the specification: one fund, listed in the manifest,
    with a price file of two records and a price in the ledger that is one
    day older than the last record. *)

Module Scenario.

Definition nl : string := String newline EmptyString.

Definition lst : list ascii :=
  txt ("h1" ++ nl ++ "h2" ++ nl ++ "h3" ++ nl ++
       "2023-01-02  x  x  x  fund.csv  Example Fund" ++ nl ++
       "t1" ++ nl ++ "t2" ++ nl).

Definition table : DataFrame :=
  {| columns := [txt "<TICKER>"; DTYYYYMMDD; txt "<OPEN>"; CLOSE];
     rows := [ [Str (txt "EX"); Str (txt "20230101"); Str (txt "9.90");
                Str (txt "10.00")];
               [Str (txt "EX"); Str (txt "20230102"); Str (txt "10.10");
                Str (txt "10.50")] ] |}.

Definition zip : archive := {[ txt "fund.csv" := Csv table ]}.

Definition PLN : GncCommodity :=
  {| namespace := txt "CURRENCY"; mnemonic := txt "PLN";
     fullname := txt "Polish Zloty" |}.

Definition fund : GncCommodity :=
  {| namespace := txt "FUND"; mnemonic := txt "EX";
     fullname := txt "Example Fund" |}.

Definition baseline : GncPrice :=
  {| commodity := fund; currency := PLN; time := mkdate 2023 1 1;
     value := {| num := 1000; denom := 100 |} |}.

Definition ledger : Book :=
  {| prices := {[ 0%nat := baseline ]}; pricedb := [0%nat];
     commodity_table := [PLN; fund] |}.

Definition net : world :=
  {| session := Ok ledger;
     urlopen_lst := Ok {| getcode := 200; read := lst |};
     urlopen_zip := Ok {| zip_getcode := 200; zip_body := Some zip |};
     save_error := None |}.

Definition argv : list (list ascii) := [txt "main.py"; txt "wallet.gnucash"].

Definition cur : option GncCommodity := Some PLN.

(** What [MstFun.__enter__] gives for [net]. *)
Definition quotes : MstFun :=
  {| fund_to_file_date :=
       {[ txt "Example Fund" := (txt "fund.csv", mkdate 2023 1 2) ]};
     mstfun := zip |}.

Definition start : state := {| book := ledger; log := [] |}.

(** The same price file with the closing price before the date. *)
Definition table_close_first : DataFrame :=
  {| columns := [txt "<TICKER>"; CLOSE; txt "<OPEN>"; DTYYYYMMDD];
     rows := [ [Str (txt "EX"); Str (txt "10.00"); Str (txt "9.90");
                Str (txt "20230101")];
               [Str (txt "EX"); Str (txt "10.50"); Str (txt "10.10");
                Str (txt "20230102")] ] |}.

Definition quotes_close_first : MstFun :=
  {| fund_to_file_date := fund_to_file_date quotes;
     mstfun := {[ txt "fund.csv" := Csv table_close_first ]} |}.

(** A second fund, listed in the manifest, whose file is not in the
    archive; the ledger has it before the first one. *)
Definition lost : GncCommodity :=
  {| namespace := txt "FUND"; mnemonic := txt "LO";
     fullname := txt "Lost Fund" |}.

Definition lst2 : list ascii :=
  txt ("h1" ++ nl ++ "h2" ++ nl ++ "h3" ++ nl ++
       "2023-01-02  x  x  x  lost.csv  Lost Fund" ++ nl ++
       "2023-01-02  x  x  x  fund.csv  Example Fund" ++ nl ++
       "t1" ++ nl ++ "t2" ++ nl).

Definition ledger2 : Book :=
  {| prices :=
       {[ 0%nat := {| commodity := lost; currency := PLN;
                      time := mkdate 2023 1 1;
                      value := {| num := 500; denom := 100 |} |};
          1%nat := baseline ]};
     pricedb := [0%nat; 1%nat];
     commodity_table := [PLN; lost; fund] |}.

Definition net2 : world :=
  {| session := Ok ledger2;
     urlopen_lst := Ok {| getcode := 200; read := lst2 |};
     urlopen_zip := Ok {| zip_getcode := 200; zip_body := Some zip |};
     save_error := None |}.

Definition quotes2 : MstFun :=
  {| fund_to_file_date :=
       {[ txt "Lost Fund" := (txt "lost.csv", mkdate 2023 1 2);
          txt "Example Fund" := (txt "fund.csv", mkdate 2023 1 2) ]};
     mstfun := zip |}.

Definition start2 : state := {| book := ledger2; log := [] |}.

End Scenario.

(** ** What a match is

    [parses its s ps]: the items [its] match a prefix of [s], item by item,
    with the texts [ps].  Every result of [run] is such a match
    ([run_parses] below); [run] chooses one of them. *)

Inductive parses : list item → list ascii → pieces → Prop :=
  | parses_nil s : parses [] s []
  | parses_One c r a s ps :
      c a = true → parses r s ps →
      parses (One c :: r) (a :: s) ([a] :: ps)
  | parses_Many c r u s ps :
      u ≠ [] → Forall (λ a, c a = true) u → parses r s ps →
      parses (Many c :: r) (u ++ s) (u :: ps)
  | parses_Any c r u s ps :
      Forall (λ a, c a = true) u → parses r s ps →
      parses (Any c :: r) (u ++ s) (u :: ps)
  | parses_Alt alts r u s ps :
      parses r s ps → parses (Alt alts :: r) (u ++ s) (u :: ps)
  | parses_Eol r s ps :
      at_eol s = true → parses r s ps → parses (Eol :: r) s ([] :: ps).

(** A run of blanks and a token, as the fields of a manifest line. *)
Definition blank (w : list ascii) : Prop :=
  w ≠ [] ∧ Forall (λ a, is_space a = true) w.

Definition token (t : list ascii) : Prop :=
  t ≠ [] ∧ Forall (λ a, not_space a = true) t.

(** The entry a manifest line stands for, when it has one. *)
Definition entry_of (l : list ascii)
  : option (list ascii * (list ascii * date)) :=
  match pat_match l with
  | Some (d, file, name) =>
      match strptime_Y_m_d d with
      | Ok dt => Some (name, (file, dt))
      | Raise _ => None
      end
  | None => None
  end.

(** The entry of a line put into the mapping. *)
Definition ins (m : manifest) (e : list ascii * (list ascii * date))
  : manifest := <[e.1 := e.2]> m.

(** Two lines that differ only in their date token. *)
Definition same_but_date (l1 l2 : list ascii) : Prop :=
  ∃ d1 d2 rest,
    length d1 = 10%nat ∧ length d2 = 10%nat
    ∧ l1 = d1 ++ rest ∧ l2 = d2 ++ rest.

(** The calls on the session, among the events. *)
Definition session_event (e : event) : bool :=
  match e with
  | SessionSave | SessionEnd | SessionDestroy => true
  | Print _ | AddPrice _ => false
  end.

(** A statement that only adds to the log, and nothing about the session. *)
Definition quiet {A} (m : M A) : Prop :=
  ∀ st, ∃ evs, log (m st).2 = log st ++ evs
               ∧ Forall (λ e, session_event e = false) evs.

(** A commodity is reported and the loop goes on with the remaining
    commodities, the ledger as it was. *)
Definition skipped_and_continued (unidecode : list ascii → list ascii)
  (mst : MstFun) (cur : option GncCommodity) (cmdt : GncCommodity)
  (rest : list GncCommodity) (st : state) : Prop :=
  ∃ r, for_each (reconcile unidecode mst cur) (cmdt :: rest) st
       = for_each (reconcile unidecode mst cur) rest
           {| book := book st; log := log st ++ [Print r] |}.

(** A date token of the manifest: [\d\d\d\d-\d\d-\d\d]. *)
Definition is_date_token (d : list ascii) : bool :=
  match d with
  | [y1; y2; y3; y4; h1; m1; m2; h2; d1; d2] =>
      is_digit y1 && is_digit y2 && is_digit y3 && is_digit y4
      && chr "-" h1 && is_digit m1 && is_digit m2 && chr "-" h2
      && is_digit d1 && is_digit d2
  | _ => false
  end.

(** The commodity a printed line names. *)
Definition report_name (r : report) : option (list ascii) :=
  match r with
  | Usage => None
  | SkippingNoPrices n | SkippingNotAvailable n | SkippingNotOlder n _ _
  | Updating n _ _ => Some n
  end.

(** The names of the lines printed, in order. *)
Definition printed_names (evs : list event) : list (list ascii) :=
  omap (λ e, match e with Print r => report_name r | _ => None end) evs.

(** The prices added and the updates announced. *)
Definition added (evs : list event) : list nat :=
  omap (λ e, match e with AddPrice p => Some p | _ => None end) evs.

Definition announced (evs : list event) : list (list ascii) :=
  omap (λ e, match e with
             | Print (Updating n _ _) => Some n
             | _ => None
             end) evs.

(** What the loop keeps of a book: the commodity table; the prices of the
    database, to which it only adds references the database already held;
    and for every price object its commodity, its currency and the
    denominator of its value. *)
Definition keeps (b b' : Book) : Prop :=
  commodity_table b' = commodity_table b
  ∧ (∃ more, pricedb b' = pricedb b ++ more ∧ ∀ p, p ∈ more → p ∈ pricedb b)
  ∧ ∀ p r, prices b !! p = Some r →
           ∃ r', prices b' !! p = Some r'
                 ∧ commodity r' = commodity r ∧ currency r' = currency r
                 ∧ denom (value r') = denom (value r).

(** A price with another date. *)
Definition at_time (r : GncPrice) (t : date) : GncPrice :=
  {| commodity := commodity r; currency := currency r;
     time := t; value := value r |}.

(** ** More data

    The fund of the scenario with a price file whose last closing price
    is not a number, and with a price file without records. *)

Module Cases.

Definition table_nan : DataFrame :=
  {| columns := [txt "<TICKER>"; DTYYYYMMDD; txt "<OPEN>"; CLOSE];
     rows := [ [Str (txt "EX"); Str (txt "20230101"); Str (txt "9.90");
                Str (txt "10.00")];
               [Str (txt "EX"); Str (txt "20230102"); Str (txt "10.10");
                Str (txt "NaN")] ] |}.

Definition quotes_nan : MstFun :=
  {| fund_to_file_date := fund_to_file_date Scenario.quotes;
     mstfun := {[ txt "fund.csv" := Csv table_nan ]} |}.

(** The price file of the scenario with other records before the last,
    under another name in the archive and another date in the manifest. *)
Definition table_longer : DataFrame :=
  {| columns := columns Scenario.table;
     rows := [ [Str (txt "EX"); Str (txt "20221230"); Str (txt "9.00");
                Str (txt "9.10")];
               [Str (txt "EX"); Missing; Str (txt "9.50")];
               [Str (txt "EX"); Str (txt "20230102"); Str (txt "10.10");
                Str (txt "10.50")] ] |}.

Definition quotes_longer : MstFun :=
  {| fund_to_file_date :=
       {[ txt "Example Fund" := (txt "other.csv", mkdate 1999 9 9) ]};
     mstfun := {[ txt "other.csv" := Csv table_longer ]} |}.

(** The same with a closing price that is a signaling NaN. *)
Definition table_snan : DataFrame :=
  {| columns := columns Scenario.table;
     rows := [ [Str (txt "EX"); Str (txt "20230101"); Str (txt "9.90");
                Str (txt "10.00")];
               [Str (txt "EX"); Str (txt "20230102"); Str (txt "10.10");
                Str (txt "sNaN")] ] |}.

Definition quotes_snan : MstFun :=
  {| fund_to_file_date := fund_to_file_date Scenario.quotes;
     mstfun := {[ txt "fund.csv" := Csv table_snan ]} |}.

Definition table_empty : DataFrame :=
  {| columns := [txt "<TICKER>"; DTYYYYMMDD; txt "<OPEN>"; CLOSE];
     rows := [] |}.

Definition quotes_empty : MstFun :=
  {| fund_to_file_date := fund_to_file_date Scenario.quotes;
     mstfun := {[ txt "fund.csv" := Csv table_empty ]} |}.

Definition table_no_close : DataFrame :=
  {| columns := [txt "<TICKER>"; DTYYYYMMDD; txt "<OPEN>"];
     rows := [ [Str (txt "EX"); Str (txt "20230101"); Str (txt "9.90")] ] |}.

Definition quotes_no_close : MstFun :=
  {| fund_to_file_date := fund_to_file_date Scenario.quotes;
     mstfun := {[ txt "fund.csv" := Csv table_no_close ]} |}.

(** A manifest that cannot be had. *)
Definition net_bad_manifest : world :=
  {| session := Ok Scenario.ledger;
     urlopen_lst := Ok {| getcode := 404; read := [] |};
     urlopen_zip := urlopen_zip Scenario.net;
     save_error := None |}.

(** A ledger that also has a price of the fund in another currency. *)
Definition EUR : GncCommodity :=
  {| namespace := txt "CURRENCY"; mnemonic := txt "EUR";
     fullname := txt "Euro" |}.

Definition price_in_EUR : GncPrice :=
  {| commodity := Scenario.fund; currency := EUR; time := mkdate 2022 12 30;
     value := {| num := 230; denom := 100 |} |}.

Definition ledger_mixed : Book :=
  {| prices := {[ 0%nat := Scenario.baseline; 1%nat := price_in_EUR ]};
     pricedb := [0%nat; 1%nat];
     commodity_table := [Scenario.PLN; EUR; Scenario.fund] |}.

Definition net_mixed : world :=
  {| session := Ok ledger_mixed;
     urlopen_lst := urlopen_lst Scenario.net;
     urlopen_zip := urlopen_zip Scenario.net;
     save_error := None |}.

End Cases.

(** * Properties *)

(** ** The matcher *)

Lemma star_parses c k s qs :
  star c k s = Some qs →
  ∃ u s' ps, s = u ++ s' ∧ Forall (λ a, c a = true) u
             ∧ qs = u :: ps ∧ k s' = Some ps.
Proof.
  revert qs. induction s as [|a s IH]; intros qs; simpl.
  - destruct (k []) as [ps|] eqn:Hk; simpl; [|done].
    intros [= <-]. exists [], [], ps. repeat split; auto.
  - assert (Hstop : (ps ← k (a :: s); Some ([] :: ps)) = Some qs →
              ∃ u s' ps, a :: s = u ++ s' ∧ Forall (λ a, c a = true) u
                         ∧ qs = u :: ps ∧ k s' = Some ps).
    { destruct (k (a :: s)) as [ps|] eqn:Hk; simpl; [|done].
      intros [= <-]. exists [], (a :: s), ps. repeat split; auto. }
    destruct (c a) eqn:Hc; [|done].
    destruct (star c k s) as [[|u ps]|] eqn:Hs; [done| |done].
    intros [= <-]. destruct (IH _ eq_refl) as (u' & s' & ps' & -> & Hu & [= -> ->] & Hk).
    exists (a :: u'), s', ps'. repeat split; auto.
Qed.

Lemma seq_match_app cs s u r : seq_match cs s = Some (u, r) → s = u ++ r.
Proof.
  revert s u. induction cs as [|c cs IH]; intros s u; simpl.
  - by intros [= <- <-].
  - destruct s as [|a s]; [done|]. destruct (c a); [|done].
    destruct (seq_match cs s) as [[u' r']|] eqn:Hm; simpl; [|done].
    intros [= <- <-]. simpl. f_equal. by apply IH.
Qed.

Lemma alt_parses alts k s qs :
  alt alts k s = Some qs →
  ∃ u s' ps, s = u ++ s' ∧ qs = u :: ps ∧ k s' = Some ps.
Proof.
  induction alts as [|cs alts IH]; simpl; [done|].
  destruct (seq_match cs s) as [[u s']|] eqn:Hm; [|done].
  destruct (k s') as [ps|] eqn:Hk; [|done].
  intros [= <-]. exists u, s', ps. by rewrite (seq_match_app _ _ _ _ Hm).
Qed.

Lemma run_parses its s ps : run its s = Some ps → parses its s ps.
Proof.
  revert s ps. induction its as [|it r IH]; intros s ps; simpl.
  - intros [= <-]. constructor.
  - destruct it as [c|c|c|alts|].
    + destruct s as [|a s]; [done|]. destruct (c a) eqn:Hc; [|done].
      destruct (run r s) as [qs|] eqn:Hr; simpl; [|done].
      intros [= <-]. constructor; auto.
    + destruct s as [|a s]; [done|]. destruct (c a) eqn:Hc; [|done].
      destruct (star c (run r) s) as [[|u qs]|] eqn:Hs; [done| |done].
      intros [= <-].
      destruct (star_parses _ _ _ _ Hs) as (u' & s' & ps' & -> & Hu & [= -> ->] & Hk).
      apply (parses_Many c r (a :: u') s' ps'); [done|by constructor|auto].
    + intros Hs.
      destruct (star_parses _ _ _ _ Hs) as (u' & s' & ps' & -> & Hu & -> & Hk).
      constructor; auto.
    + intros Hs.
      destruct (alt_parses _ _ _ _ Hs) as (u' & s' & ps' & -> & -> & Hk).
      constructor; auto.
    + destruct (at_eol s) eqn:He; [|done].
      destruct (run r s) as [qs|] eqn:Hr; simpl; [|done].
      intros [= <-]. constructor; auto.
Qed.

(** Two decompositions of a text into a run of one class followed by a
    character of a disjoint class agree on the run. *)
Lemma runs_split (c d : cls) u u' v v' x x' :
  (∀ a, c a = true → d a = true → False) →
  Forall (λ a, c a = true) u → Forall (λ a, c a = true) u' →
  v ≠ [] → v' ≠ [] →
  Forall (λ a, d a = true) v → Forall (λ a, d a = true) v' →
  u ++ v ++ x = u' ++ v' ++ x' → u = u' ∧ v ++ x = v' ++ x'.
Proof.
  intros Hcd Hu Hu' Hv Hv' Hdv Hdv'. revert u' Hu'.
  induction Hu as [|a u Ha Hu IH]; intros u' Hu' Heq.
  - destruct Hu' as [|a' u' Ha' Hu']; [done|]. exfalso.
    destruct Hdv as [|b v Hb _]; [done|]. simpl in Heq.
    injection Heq as -> _. eauto.
  - destruct Hu' as [|a' u' Ha' Hu'].
    + exfalso. destruct Hdv' as [|b v' Hb _]; [done|]. simpl in Heq.
      injection Heq as -> _. eauto.
    + simpl in Heq. injection Heq as -> Heq.
      destruct (IH _ Hu' Heq) as [-> ?]. done.
Qed.

Lemma space_not_space a : is_space a = true → not_space a = true → False.
Proof. unfold not_space. by intros ->. Qed.

Lemma not_space_space a : not_space a = true → is_space a = true → False.
Proof. eauto using space_not_space. Qed.

Lemma pat_match_one_character_name date w1 t1 w2 t2 w3 t3 w4 file w5 c w6 :
  length date = 10%nat →
  blank w1 → token t1 → blank w2 → token t2 → blank w3 → token t3 →
  blank w4 → token file → blank w5 →
  not_space c = true → Forall (λ a, is_space a = true) w6 →
  pat_match (date ++ w1 ++ t1 ++ w2 ++ t2 ++ w3 ++ t3 ++ w4 ++ file
             ++ w5 ++ [c] ++ w6) = None.
Proof.
  intros Hlen [Hw1 Fw1] [Ht1 Ft1] [Hw2 Fw2] [Ht2 Ft2] [Hw3 Fw3] [Ht3 Ft3]
    [Hw4 Fw4] [Hf Ff] [Hw5 Fw5] Hc Fw6.
  unfold pat_match.
  destruct (run date_file_name_pat _) as [ps|] eqn:Hr; [exfalso|done].
  apply run_parses in Hr.
  do 10 (destruct date as [|? date]; [done|]). destruct date; [|done].
  unfold date_file_name_pat in Hr. simpl in Hr.
  repeat match goal with
         | H : parses (_ :: _) _ _ |- _ => inversion H; clear H; subst
         end.
  rename H1 into E.
  apply (runs_split is_space not_space) in E;
    [destruct E as [-> E]|eauto using space_not_space..].
  apply (runs_split not_space is_space) in E;
    [destruct E as [-> E]|eauto using not_space_space..].
  apply (runs_split is_space not_space) in E;
    [destruct E as [-> E]|eauto using space_not_space..].
  apply (runs_split not_space is_space) in E;
    [destruct E as [-> E]|eauto using not_space_space..].
  apply (runs_split is_space not_space) in E;
    [destruct E as [-> E]|eauto using space_not_space..].
  apply (runs_split not_space is_space) in E;
    [destruct E as [-> E]|eauto using not_space_space..].
  apply (runs_split is_space not_space) in E;
    [destruct E as [-> E]|eauto using space_not_space..].
  apply (runs_split not_space is_space) in E;
    [destruct E as [-> E]|eauto using not_space_space..].
  apply (runs_split is_space not_space _ _ [a9] [c]) in E;
    [destruct E as [-> E]|eauto using space_not_space..].
  simpl in E. injection E as -> <-.
  rewrite Forall_app, Forall_cons in Fw6.
  destruct Fw6 as (_ & Ha10 & _). eauto using space_not_space.
Qed.

(** ** The manifest parser *)

Lemma body_lines_app (h b t : list (list ascii)) :
  length h = 3%nat → length t = 2%nat → body_lines (h ++ b ++ t) = b.
Proof.
  intros Hh Ht. unfold body_lines.
  rewrite !length_app, Ht.
  replace (length h + (length b + 2) - 2)%nat with (length (h ++ b))
    by (rewrite length_app; lia).
  rewrite app_assoc, take_app_length.
  by rewrite <-Hh, drop_app_length.
Qed.

Lemma length_body_lines (lines : list (list ascii)) :
  length (body_lines lines) = (length lines - 5)%nat.
Proof. unfold body_lines. rewrite length_drop, length_take. lia. Qed.

Lemma add_line_entry m l n v :
  entry_of l = Some (n, v) → add_line m l = Ok (<[n := v]> m).
Proof.
  unfold entry_of, add_line.
  destruct (pat_match l) as [[[d f] k]|]; [|done].
  destruct (strptime_Y_m_d d); [|done]. by intros [= <- <-].
Qed.

Lemma add_line_no_match m l :
  pat_match l = None → add_line m l = Raise (line_error l).
Proof. unfold add_line. by intros ->. Qed.

Lemma add_lines_entries m ls es :
  Forall2 (λ l e, entry_of l = Some e) ls es →
  add_lines m ls = Ok (foldl ins m es).
Proof.
  intros H. revert m. induction H as [|l [n v] ls es Hl Hls IH]; intros m.
  - done.
  - simpl. rewrite (add_line_entry _ _ _ _ Hl). simpl. apply IH.
Qed.

Lemma add_lines_app m pre ls es :
  Forall2 (λ l e, entry_of l = Some e) pre es →
  add_lines m (pre ++ ls) = add_lines (foldl ins m es) ls.
Proof.
  intros H. revert m. induction H as [|l [n v] pre es Hl Hpre IH]; intros m.
  - done.
  - simpl. rewrite (add_line_entry _ _ _ _ Hl). simpl. apply IH.
Qed.

Lemma add_lines_bad m ls l :
  l ∈ ls → pat_match l = None → ∃ e, add_lines m ls = Raise e.
Proof.
  intros Hin Hbad. revert m.
  induction Hin as [l ls|l x ls _ IH]; intros m; simpl.
  - rewrite (add_line_no_match _ _ Hbad). by eexists.
  - destruct (add_line m x) as [m'|e]; simpl; [by apply IH|by eexists].
Qed.

Lemma foldl_ins_notin m es n :
  n ∉ es.*1 → foldl ins m es !! n = m !! n.
Proof.
  revert m. induction es as [|[k v] es IH]; intros m Hn; [done|].
  simpl in *. apply not_elem_of_cons in Hn as [Hk Hn].
  rewrite IH by done. unfold ins. simpl. by rewrite lookup_insert_ne.
Qed.

Lemma foldl_ins_last m pre n v post :
  n ∉ post.*1 → foldl ins m (pre ++ (n, v) :: post) !! n = Some v.
Proof.
  intros Hn. rewrite foldl_app. simpl. rewrite foldl_ins_notin by done.
  unfold ins at 1. simpl. apply lookup_insert_eq.
Qed.

Lemma foldl_ins_dom m es :
  dom (foldl ins m es) = dom m ∪ list_to_set es.*1.
Proof.
  revert m. induction es as [|[k v] es IH]; intros m; simpl.
  - set_solver.
  - rewrite IH. unfold ins. simpl. rewrite dom_insert_L. set_solver.
Qed.

Lemma foldl_ins_size m es :
  (size (foldl ins m es) ≤ size m + length es)%nat.
Proof.
  revert m. induction es as [|[k v] es IH]; intros m; simpl; [lia|].
  etrans; [apply IH|]. unfold ins. simpl. rewrite map_size_insert.
  destruct (m !! k); unfold id; lia.
Qed.

(** C7: a manifest whose lines between the first three and the last two
    all are records parses to a mapping.  The three header lines and the two
    trailer lines are dropped whatever they hold; the names of the mapping
    are the names of the remaining lines, so it has (number of lines - 5)
    entries when the names differ and fewer when a name repeats; a name
    maps to the file and date of the last line that has it. *)
Theorem parse_entries text h b t es :
  splitlines text = h ++ b ++ t → length h = 3%nat → length t = 2%nat →
  Forall2 (λ l e, entry_of l = Some e) b es →
  ∃ m, parse text = Ok m
       ∧ dom m = list_to_set es.*1
       ∧ (size m ≤ length (splitlines text) - 5)%nat
       ∧ (NoDup es.*1 →
          Z.of_nat (size m) = Z.of_nat (length (splitlines text)) - 5)
       ∧ (∀ pre n v post,
            es = pre ++ (n, v) :: post → n ∉ post.*1 → m !! n = Some v).
Proof.
  intros Hs Hh Ht Hb. exists (foldl ins ∅ es).
  assert (Hlen : length (splitlines text) = (length es + 5)%nat).
  { rewrite Hs, !length_app, Hh, Ht, (Forall2_length _ _ _ Hb). lia. }
  assert (Hdom : dom (foldl ins ∅ es) = list_to_set es.*1).
  { rewrite foldl_ins_dom. set_solver. }
  split; [|split; [|split; [|split]]].
  - unfold parse. rewrite Hs, body_lines_app by done.
    by apply add_lines_entries.
  - done.
  - pose proof (foldl_ins_size ∅ es) as Hsz.
    rewrite map_size_empty in Hsz. lia.
  - intros Hnd. rewrite <-size_dom, Hdom, size_list_to_set by done.
    rewrite length_fmap. lia.
  - intros pre n v post -> Hn. by apply foldl_ins_last.
Qed.

(** A line that is no entry stops the loop: with the message for lines
    without information when the pattern does not match it, and with the
    exception of [strptime] when the pattern matches it and its date is
    refused. *)
Lemma add_line_not_entry m x :
  entry_of x = None →
  (pat_match x = None ∧ add_line m x = Raise (line_error x))
  ∨ ∃ d f n e, pat_match x = Some (d, f, n)
               ∧ strptime_Y_m_d d = Raise e ∧ add_line m x = Raise e.
Proof.
  unfold entry_of, add_line.
  destruct (pat_match x) as [[[d f] n]|]; [|by left].
  destruct (strptime_Y_m_d d) as [dt|e] eqn:E; [done|].
  intros _. right. by exists d, f, n, e.
Qed.

(** Among lines of which one is no entry there is a first such line, and
    the given line is that one or comes after it. *)
Lemma first_not_entry ls l :
  l ∈ ls → entry_of l = None →
  ∃ pre x post es,
    ls = pre ++ x :: post
    ∧ Forall2 (λ y e, entry_of y = Some e) pre es
    ∧ entry_of x = None
    ∧ l ∈ x :: post.
Proof.
  intros Hin Hl. induction ls as [|y ls IH]; [by apply elem_of_nil in Hin|].
  destruct (entry_of y) as [e|] eqn:Ey.
  - apply elem_of_cons in Hin as [->|Hin]; [congruence|].
    destruct (IH Hin) as (pre & x & post & es & -> & Hpre & Hx & Hlx).
    exists (y :: pre), x, post, (e :: es).
    repeat split; try done; by constructor.
  - exists [], y, ls, []. repeat split; try done; constructor.
Qed.

Lemma no_match_not_entry l : pat_match l = None → entry_of l = None.
Proof. unfold entry_of. by intros ->. Qed.

(** C6, as the code has it: a manifest with a line, between the first
    three and the last two, that the pattern does not match is not parsed:
    the result is an error, never a mapping.  The error is that of the
    first body line that is no entry, which is the given line or a line
    before it: the exception whose message ends with that line as it was
    read when the pattern does not match it, and the [ValueError] of
    [strptime], which names no line, when the pattern matches it and its
    date is refused.  So the error names the given line when the lines
    before it are entries. *)
Theorem parse_bad_line text l
  (Hin : l ∈ body_lines (splitlines text)) (Hbad : pat_match l = None) :
  (∃ e, parse text = Raise e)
  ∧ (∃ pre x post es,
       body_lines (splitlines text) = pre ++ x :: post
       ∧ Forall2 (λ y e, entry_of y = Some e) pre es
       ∧ entry_of x = None
       ∧ l ∈ x :: post
       ∧ ((pat_match x = None
           ∧ parse text =
               Raise (Exception
                        (txt "Could not extract information fromlst's line: "
                         ++ x)))
          ∨ ∃ d f n e, pat_match x = Some (d, f, n)
                       ∧ strptime_Y_m_d d = Raise e
                       ∧ parse text = Raise e))
  ∧ (∀ pre post es,
       body_lines (splitlines text) = pre ++ l :: post →
       Forall2 (λ x e, entry_of x = Some e) pre es →
       parse text =
         Raise (Exception
                  (txt "Could not extract information fromlst's line: " ++ l))).
Proof.
  split; [by apply add_lines_bad with l|]. split.
  - destruct (first_not_entry _ l Hin (no_match_not_entry l Hbad))
      as (pre & x & post & es & Hb & Hpre & Hx & Hlx).
    exists pre, x, post, es. repeat split; try done.
    unfold parse. rewrite Hb, (add_lines_app _ _ _ _ Hpre). simpl.
    destruct (add_line_not_entry (foldl ins ∅ es) x Hx)
      as [[Hn ->]|(d & f & n & e & Hm & Hs & ->)].
    + by left.
    + right. by exists d, f, n, e.
  - intros pre post es Hb Hpre. unfold parse.
    rewrite Hb, (add_lines_app _ _ _ _ Hpre). simpl.
    by rewrite (add_line_no_match _ _ Hbad).
Qed.

(** C9: a line that has the documented fields (a date of ten characters,
    three filler tokens, the file, the name, separated by blanks) but whose
    name is a single character is not matched by the pattern, and a manifest
    that has it between its first three and last two lines is not parsed. *)
Theorem one_character_name_fails date w1 t1 w2 t2 w3 t3 w4 file w5 c w6
  (Hdate : length date = 10%nat)
  (Hw1 : blank w1) (Ht1 : token t1) (Hw2 : blank w2) (Ht2 : token t2)
  (Hw3 : blank w3) (Ht3 : token t3) (Hw4 : blank w4) (Hfile : token file)
  (Hw5 : blank w5) (Hc : not_space c = true)
  (Hw6 : Forall (λ a, is_space a = true) w6) :
  let l := date ++ w1 ++ t1 ++ w2 ++ t2 ++ w3 ++ t3 ++ w4 ++ file
           ++ w5 ++ [c] ++ w6 in
  pat_match l = None
  ∧ ∀ text, l ∈ body_lines (splitlines text) → ∃ e, parse text = Raise e.
Proof.
  intros l.
  assert (Hl : pat_match l = None)
    by by apply pat_match_one_character_name.
  split; [done|]. intros text Hin. by apply add_lines_bad with l.
Qed.

(** ** The date of the manifest *)

Lemma run_One c r a s :
  run (One c :: r) (a :: s)
  = if c a then ps ← run r s; Some ([a] :: ps) else None.
Proof. done. Qed.

(** The file and the name the pattern finds do not depend on the ten
    characters of the date. *)
Lemma pat_match_date d1 d2 rest g1 f1 n1 g2 f2 n2 :
  length d1 = 10%nat → length d2 = 10%nat →
  pat_match (d1 ++ rest) = Some (g1, f1, n1) →
  pat_match (d2 ++ rest) = Some (g2, f2, n2) →
  f1 = f2 ∧ n1 = n2.
Proof.
  intros H1 H2.
  do 10 (destruct d1 as [|? d1]; [done|]). destruct d1; [|done].
  do 10 (destruct d2 as [|? d2]; [done|]). destruct d2; [|done].
  unfold pat_match, date_file_name_pat. cbn [app].
  rewrite !run_One.
  repeat match goal with
         | |- context [if ?c ?a then _ else _] => destruct (c a); [|done]
         end.
  destruct (run _ rest) as [ps|]; [|done]. simpl.
  by intros [= <- <- <-] [= <- <- <-].
Qed.

Lemma entry_of_same_but_date l1 l2 n1 f1 t1 n2 f2 t2 :
  same_but_date l1 l2 →
  entry_of l1 = Some (n1, (f1, t1)) → entry_of l2 = Some (n2, (f2, t2)) →
  n1 = n2 ∧ f1 = f2.
Proof.
  intros (d1 & d2 & rest & Hd1 & Hd2 & -> & ->). unfold entry_of.
  destruct (pat_match (d1 ++ rest)) as [[[g1 x1] y1]|] eqn:E1; [|done].
  destruct (pat_match (d2 ++ rest)) as [[[g2 x2] y2]|] eqn:E2; [|done].
  destruct (pat_match_date _ _ _ _ _ _ _ _ _ Hd1 Hd2 E1 E2) as [-> ->].
  destruct (strptime_Y_m_d g1); [|done].
  destruct (strptime_Y_m_d g2); [|done].
  by intros [= <- <- _] [= <- <- _].
Qed.

Lemma add_lines_Ok m ls m' :
  add_lines m ls = Ok m' →
  ∃ es, Forall2 (λ l e, entry_of l = Some e) ls es ∧ m' = foldl ins m es.
Proof.
  revert m. induction ls as [|l ls IH]; intros m; simpl.
  - intros [= <-]. by exists [].
  - unfold add_line, entry_of in *.
    destruct (pat_match l) as [[[d f] n]|] eqn:El; [|done]. simpl.
    destruct (strptime_Y_m_d d) as [dt|] eqn:Ed; [|done]. simpl.
    intros H. destruct (IH _ H) as (es & Hes & ->).
    exists ((n, (f, dt)) :: es). split; [|done].
    constructor; [|done]. by rewrite El, Ed.
Qed.

Lemma fmap_foldl_ins (m1 m2 : manifest) es1 es2 :
  fst <$> m1 = fst <$> m2 →
  Forall2 (λ e1 e2, e1.1 = e2.1 ∧ e1.2.1 = e2.2.1) es1 es2 →
  fst <$> foldl ins m1 es1 = fst <$> foldl ins m2 es2.
Proof.
  intros Hm H. revert m1 m2 Hm.
  induction H as [|[n1 [f1 t1]] [n2 [f2 t2]] es1 es2 [Hn Hf] Hes IH];
    intros m1 m2 Hm; [done|].
  simpl in *. subst. apply IH. unfold ins. simpl.
  by rewrite !fmap_insert, Hm.
Qed.

Lemma get_fund_price_files (m1 m2 : manifest) z name :
  fst <$> m1 = fst <$> m2 →
  get_fund_price {| fund_to_file_date := m1; mstfun := z |} name
  = get_fund_price {| fund_to_file_date := m2; mstfun := z |} name.
Proof.
  intros Hm. unfold get_fund_price. simpl.
  assert (H : fst <$> (m1 !! name) = fst <$> (m2 !! name))
    by by rewrite <-!lookup_fmap, Hm.
  destruct (m1 !! name) as [[f1 t1]|], (m2 !! name) as [[f2 t2]|];
    simpl in H; by simplify_eq.
Qed.

(** C10: two manifests whose lines differ only in the date token give
    mappings with the same names and the same files, and then the quote of
    every fund, and what the driver does for every commodity in every state
    of the ledger, are the same: the date of the manifest is stored and
    never read. *)
Theorem manifest_date_never_read text1 text2 m1 m2
  (Hlines : Forall2 same_but_date (body_lines (splitlines text1))
                                  (body_lines (splitlines text2)))
  (Hm1 : parse text1 = Ok m1) (Hm2 : parse text2 = Ok m2) :
  fst <$> m1 = fst <$> m2
  ∧ ∀ z,
      let mst1 := {| fund_to_file_date := m1; mstfun := z |} in
      let mst2 := {| fund_to_file_date := m2; mstfun := z |} in
      (∀ name, get_fund_price mst1 name = get_fund_price mst2 name)
      ∧ (∀ unidecode cur cmdt st,
           reconcile unidecode mst1 cur cmdt st
           = reconcile unidecode mst2 cur cmdt st).
Proof.
  assert (Hfst : fst <$> m1 = fst <$> m2).
  { unfold parse in *.
    destruct (add_lines_Ok _ _ _ Hm1) as (es1 & H1 & ->).
    destruct (add_lines_Ok _ _ _ Hm2) as (es2 & H2 & ->).
    apply fmap_foldl_ins; [done|]. clear Hm1 Hm2.
    revert es1 es2 H1 H2.
    induction Hlines as [|l1 l2 b1 b2 Hl Hb IH]; intros es1 es2 H1 H2.
    - apply Forall2_nil_inv_l in H1 as ->.
      apply Forall2_nil_inv_l in H2 as ->. constructor.
    - apply Forall2_cons_inv_l in H1 as ([n1 [f1 t1]] & es1' & E1 & H1 & ->).
      apply Forall2_cons_inv_l in H2 as ([n2 [f2 t2]] & es2' & E2 & H2 & ->).
      constructor; [|by apply IH].
      by apply (entry_of_same_but_date l1 l2 _ _ t1 _ _ t2). }
  split; [done|]. intros z mst1 mst2.
  assert (Hq : ∀ name, get_fund_price mst1 name = get_fund_price mst2 name)
    by (intros; by apply get_fund_price_files).
  split; [done|]. intros unidecode cur cmdt st.
  unfold reconcile. by rewrite Hq.
Qed.

(** ** The order of dates *)

Lemma date_geb_false a b : date_geb a b = false ↔ date_lt a b.
Proof.
  unfold date_geb, date_ltb, date_lt. rewrite negb_false_iff.
  rewrite !orb_true_iff, !andb_true_iff, !orb_true_iff, !andb_true_iff.
  rewrite !Z.ltb_lt, !Z.eqb_eq. done.
Qed.

Lemma date_geb_true a b : date_geb a b = true ↔ b = a ∨ date_lt b a.
Proof.
  rewrite <-not_false_iff_true, date_geb_false. unfold date_lt.
  destruct a as [ya ma da], b as [yb mb db]. simpl. split.
  - intros H.
    destruct (decide (yb = ya ∧ mb = ma ∧ db = da)) as [(-> & -> & ->)|Hne];
      [by left|right]. lia.
  - intros [[= -> -> ->]|H]; lia.
Qed.

(** ** The driver on one commodity *)

Section Reconcile.

Variable unidecode : list ascii → list ascii.
Variables (mst : MstFun) (cur : option GncCommodity) (cmdt : GncCommodity).

Lemma reconcile_no_baseline st :
  lookup_latest (book st) cmdt cur = None →
  reconcile unidecode mst cur cmdt st
  = (Ok (), {| book := book st;
               log := log st ++ [Print (SkippingNoPrices (fullname cmdt))] |}).
Proof. intros H. unfold reconcile, mbind, M_bind, with_book. by rewrite H. Qed.

Lemma reconcile_not_available st pl :
  lookup_latest (book st) cmdt cur = Some pl →
  get_fund_price mst (unidecode (fullname cmdt)) = Ok None →
  reconcile unidecode mst cur cmdt st
  = (Ok (), {| book := book st;
               log := log st
                      ++ [Print (SkippingNotAvailable (fullname cmdt))] |}).
Proof.
  intros H Hq. unfold reconcile, mbind, M_bind, with_book, lift.
  by rewrite H, Hq.
Qed.

Lemma reconcile_raises st pl e :
  lookup_latest (book st) cmdt cur = Some pl →
  get_fund_price mst (unidecode (fullname cmdt)) = Raise e →
  reconcile unidecode mst cur cmdt st = (Raise e, st).
Proof.
  intros H Hq. unfold reconcile, mbind, M_bind, with_book, lift.
  by rewrite H, Hq.
Qed.

Lemma reconcile_not_older st pl old price day :
  lookup_latest (book st) cmdt cur = Some pl →
  prices (book st) !! pl = Some old →
  get_fund_price mst (unidecode (fullname cmdt)) = Ok (Some (price, day)) →
  date_geb (time old) day = true →
  reconcile unidecode mst cur cmdt st
  = (Ok (), {| book := book st;
               log := log st
                      ++ [Print (SkippingNotOlder (fullname cmdt)
                                   (time old) day)] |}).
Proof.
  intros H Hold Hq Hge.
  unfold reconcile, mbind, M_bind, with_book, lift, get_price.
  by rewrite H, Hq, Hold, Hge.
Qed.

Lemma reconcile_update st pl old price day n :
  lookup_latest (book st) cmdt cur = Some pl →
  prices (book st) !! pl = Some old →
  get_fund_price mst (unidecode (fullname cmdt)) = Ok (Some (price, day)) →
  date_geb (time old) day = false →
  to_num price (denom (value old)) = Ok n →
  reconcile unidecode mst cur cmdt st
  = (Ok (),
     {| book :=
          {| prices :=
               <[pl := {| commodity := commodity old;
                          currency := currency old;
                          time := day;
                          value := {| num := n;
                                      denom := denom (value old) |} |}]>
                 (<[fresh (dom (prices (book st))) := old]>
                    (prices (book st)));
             pricedb := pricedb (book st) ++ [pl];
             commodity_table := commodity_table (book st) |};
        log := log st ++ [Print (Updating (fullname cmdt) price day);
                          AddPrice pl] |}).
Proof.
  intros H Hold Hq Hge Hn.
  assert (Hne : fresh (dom (prices (book st))) ≠ pl).
  { intros <-. apply (is_fresh (dom (prices (book st)))).
    by apply elem_of_dom_2 with old. }
  unfold reconcile, mbind, M_bind, with_book, lift, get_price.
  rewrite H, Hq, Hold, Hge.
  unfold print, emit, clone, set_time, set_value, add_price, set_prices,
    mbind, M_bind, mret, M_ret, get_price, with_book, lift. simpl.
  rewrite Hold. simpl.
  rewrite lookup_alter_eq, lookup_insert_ne, Hold by done. simpl.
  rewrite Hn. simpl. rewrite <-app_assoc. simpl.
  do 3 f_equal. apply map_eq. intros i.
  destruct (decide (i = pl)) as [->|Hi].
  - rewrite lookup_insert_eq, !lookup_alter_eq, lookup_insert_ne, Hold by done.
    done.
  - by rewrite lookup_insert_ne, !lookup_alter_ne by done.
Qed.

Lemma reconcile_conversion_raises st pl old price day e :
  lookup_latest (book st) cmdt cur = Some pl →
  prices (book st) !! pl = Some old →
  get_fund_price mst (unidecode (fullname cmdt)) = Ok (Some (price, day)) →
  date_geb (time old) day = false →
  to_num price (denom (value old)) = Raise e →
  reconcile unidecode mst cur cmdt st
  = (Raise e,
     {| book :=
          {| prices :=
               <[pl := at_time old day]>
                 (<[fresh (dom (prices (book st))) := old]>
                    (prices (book st)));
             pricedb := pricedb (book st);
             commodity_table := commodity_table (book st) |};
        log := log st ++ [Print (Updating (fullname cmdt) price day)] |}).
Proof.
  intros H Hold Hq Hge Hn.
  assert (Hne : fresh (dom (prices (book st))) ≠ pl).
  { intros <-. apply (is_fresh (dom (prices (book st)))).
    by apply elem_of_dom_2 with old. }
  unfold reconcile, mbind, M_bind, with_book, lift, get_price.
  rewrite H, Hq, Hold, Hge.
  unfold print, emit, clone, set_time, set_value, add_price, set_prices,
    mbind, M_bind, mret, M_ret, get_price, with_book, lift. simpl.
  rewrite Hold. simpl.
  rewrite lookup_alter_eq, lookup_insert_ne, Hold by done. simpl.
  rewrite Hn. do 3 f_equal. apply map_eq. intros i.
  destruct (decide (i = pl)) as [->|Hi].
  - by rewrite lookup_insert_eq, lookup_alter_eq, lookup_insert_ne, Hold.
  - by rewrite lookup_insert_ne, lookup_alter_ne by done.
Qed.

(** C1, as the code has it: for a commodity with a price in the ledger
    dated T1 and a quote dated T2, the driver makes an insertion, one
    [add_price], exactly when T1 < T2 and the price of the quote converts
    to a numerator.  When T2 is T1 or earlier, nothing in the ledger
    changes and the commodity is reported as skipped, whatever the price
    of the quote.  When T1 < T2 the update is announced; if the price
    converts, a price object that the book did not have is made for the
    same commodity and currency, one price is added to the database, and
    the added price carries T2; if the price does not convert, the
    exception of the conversion leaves the loop body and nothing is added.
    Which price object is changed and added is the matter of C3. *)
Theorem insert_iff_newer st pl old price day
  (Hpl : lookup_latest (book st) cmdt cur = Some pl)
  (Hold : prices (book st) !! pl = Some old)
  (Hq : get_fund_price mst (unidecode (fullname cmdt))
        = Ok (Some (price, day))) :
  ∃ r evs st',
    reconcile unidecode mst cur cmdt st = (r, st')
    ∧ log st' = log st ++ evs
    ∧ ((∃ p, AddPrice p ∈ evs)
       ↔ date_lt (time old) day ∧ is_Ok (to_num price (denom (value old))))
    ∧ (day = time old ∨ date_lt day (time old) →
         r = Ok ()
         ∧ evs = [Print (SkippingNotOlder (fullname cmdt) (time old) day)]
         ∧ book st' = book st)
    ∧ (date_lt (time old) day →
       ∀ n, to_num price (denom (value old)) = Ok n →
         r = Ok ()
         ∧ ∃ p q made,
             evs = [Print (Updating (fullname cmdt) price day); AddPrice p]
             ∧ pricedb (book st') = pricedb (book st) ++ [p]
             ∧ time <$> prices (book st') !! p = Some day
             ∧ prices (book st) !! q = None
             ∧ prices (book st') !! q = Some made
             ∧ commodity made = commodity old
             ∧ currency made = currency old
             ∧ dom (prices (book st')) = {[q]} ∪ dom (prices (book st)))
    ∧ (date_lt (time old) day →
       ∀ e, to_num price (denom (value old)) = Raise e →
         r = Raise e
         ∧ evs = [Print (Updating (fullname cmdt) price day)]
         ∧ pricedb (book st') = pricedb (book st)).
Proof.
  destruct (date_geb (time old) day) eqn:Hge.
  - assert (Hnlt : ¬ date_lt (time old) day).
    { rewrite <-date_geb_false. by rewrite Hge. }
    eexists _, _, _.
    split; [by apply (reconcile_not_older st pl old price day)|]. simpl.
    split; [done|]. split; [|split; [done|split; [done|done]]].
    split; [|by intros [? _]]. intros [p Hp].
    apply list_elem_of_singleton in Hp. done.
  - assert (Hlt : date_lt (time old) day) by by apply date_geb_false.
    assert (Hle : ¬ (day = time old ∨ date_lt day (time old))).
    { intros Hle. apply date_geb_true in Hle. congruence. }
    assert (Hnew : fresh (dom (prices (book st))) ∉ dom (prices (book st)))
      by apply is_fresh.
    assert (Hne : fresh (dom (prices (book st))) ≠ pl).
    { intros E. apply Hnew. rewrite E. by apply elem_of_dom_2 with old. }
    destruct (to_num price (denom (value old))) as [n|e] eqn:Hn.
    + eexists _, _, _.
      split; [by apply (reconcile_update st pl old price day n)|]. simpl.
      split; [done|]. split; [|split; [done|split; [|done]]].
      * split; [|intros _; exists pl; by right; left].
        intros _. split; [done|by exists n].
      * intros _ n' [= <-]. split; [done|].
        exists pl, (fresh (dom (prices (book st)))), old.
        split; [done|]. split; [done|].
        split; [by rewrite lookup_insert_eq|].
        split; [by apply not_elem_of_dom|].
        split; [by rewrite lookup_insert_ne, lookup_insert_eq|].
        split; [done|]. split; [done|].
        rewrite !dom_insert_L.
        assert (pl ∈ dom (prices (book st))) by by apply elem_of_dom_2 with old.
        set_solver.
    + eexists _, _, _.
      split; [by apply (reconcile_conversion_raises st pl old price day e)|]. simpl.
      split; [done|]. split; [|split; [done|split; [done|]]].
      * split; [|by intros [_ [? ?]]]. intros [p Hp].
        apply list_elem_of_singleton in Hp. done.
      * by intros _ e' [= <-].
Qed.

End Reconcile.

(** The price [lookup_latest] finds is a price of the book, of the
    commodity and in the currency asked for. *)
Lemma newest_elem_of b ps p : newest b ps = Some p → p ∈ ps.
Proof.
  revert p. induction ps as [|q ps IH]; intros p; simpl; [done|].
  destruct (newest b ps) as [q'|].
  - destruct (date_ltb _ _); intros [= <-]; [right; by apply IH|left].
  - intros [= <-]. left.
Qed.

Lemma lookup_latest_Some b cmdt cur p :
  lookup_latest b cmdt cur = Some p →
  ∃ c r, cur = Some c ∧ prices b !! p = Some r
         ∧ commodity r = cmdt ∧ currency r = c ∧ p ∈ pricedb b.
Proof.
  unfold lookup_latest. destruct cur as [c|]; [|done]. intros H.
  apply newest_elem_of, list_elem_of_filter in H as [H Hin].
  unfold is_price_of in H. destruct (prices b !! p) as [r|]; [|done].
  apply bool_decide_unpack in H as [? ?]. by exists c, r.
Qed.

(** ** What the loop logs *)

Lemma quiet_here {A} (r : state → result A) : quiet (λ st, (r st, st)).
Proof. intros st. exists []. by rewrite app_nil_r. Qed.

Lemma quiet_bind {A B} (m : M A) (f : A → M B) :
  quiet m → (∀ a, quiet (f a)) → quiet (m ≫= f).
Proof.
  intros Hm Hf st. unfold mbind, M_bind.
  destruct (Hm st) as (evs & Hl & Hq). destruct (m st) as [[a|e] st']; simpl in *.
  - destruct (Hf a st') as (evs' & Hl' & Hq'). exists (evs ++ evs').
    rewrite Hl', Hl, app_assoc. split; [done|]. by apply Forall_app.
  - by exists evs.
Qed.

Lemma quiet_emit e : session_event e = false → quiet (emit e).
Proof. intros He st. exists [e]. simpl. split; [done|]. by constructor. Qed.

Lemma quiet_set_prices f : quiet (set_prices f).
Proof. intros st. exists []. simpl. by rewrite app_nil_r. Qed.

Lemma quiet_get_price p : quiet (get_price p).
Proof.
  intros st. exists []. unfold get_price.
  destruct (prices (book st) !! p); simpl; by rewrite app_nil_r.
Qed.

Lemma quiet_add_price p : quiet (add_price p).
Proof. intros st. exists [AddPrice p]. simpl. split; [done|]. by constructor. Qed.

Lemma quiet_reconcile unidecode mst cur cmdt :
  quiet (reconcile unidecode mst cur cmdt).
Proof.
  unfold reconcile.
  apply quiet_bind; [apply (quiet_here (λ st, Ok _))|]. intros [pl|].
  - apply quiet_bind; [apply (quiet_here (λ _, _))|]. intros [[price day]|].
    + apply quiet_bind; [apply quiet_get_price|]. intros old.
      destruct (date_geb (time old) day); [by apply quiet_emit|].
      apply quiet_bind; [by apply quiet_emit|]. intros _.
      apply quiet_bind.
      { unfold clone. apply quiet_bind; [apply quiet_get_price|]. intros r.
        apply quiet_bind; [apply (quiet_here (λ st, Ok _))|]. intros q.
        apply quiet_bind; [apply quiet_set_prices|]. intros _.
        apply (quiet_here (λ _, Ok q)). }
      intros _. apply quiet_bind; [apply quiet_set_prices|]. intros _.
      apply quiet_bind; [apply quiet_get_price|]. intros r.
      apply quiet_bind; [apply (quiet_here (λ _, _))|]. intros n.
      apply quiet_bind; [apply quiet_set_prices|]. intros _.
      apply quiet_add_price.
    + by apply quiet_emit.
  - by apply quiet_emit.
Qed.

Lemma quiet_for_each {A} (body : A → M unit) xs :
  (∀ x, quiet (body x)) → quiet (for_each body xs).
Proof.
  intros Hb. induction xs as [|x xs IH]; simpl.
  - apply (quiet_here (λ _, Ok ())).
  - apply quiet_bind; [apply Hb|]. by intros _.
Qed.

Lemma for_each_cons_Ok {A} (body : A → M unit) x xs st st' :
  body x st = (Ok (), st') → for_each body (x :: xs) st = for_each body xs st'.
Proof. intros H. simpl. unfold mbind, M_bind. by rewrite H. Qed.

Lemma for_each_cons_Raise {A} (body : A → M unit) x xs st st' e :
  body x st = (Raise e, st') → for_each body (x :: xs) st = (Raise e, st').
Proof. intros H. simpl. unfold mbind, M_bind. by rewrite H. Qed.

(** The [try] block logs what the loop logs and then, if the loop was left
    normally, one [session.save()]. *)
Lemma try_block_log unidecode w st :
  ∃ evs (saved : bool),
    log (try_block unidecode w st).2
    = log st ++ evs ++ (if saved then [SessionSave] else [])
    ∧ Forall (λ e, session_event e = false) evs
    ∧ (is_Ok (try_block unidecode w st).1 → saved = true)
    ∧ (saved = false → ∃ e, (try_block unidecode w st).1 = Raise e).
Proof.
  unfold try_block, mbind, M_bind, with_book, lift. simpl.
  destruct (MstFun_enter _ _) as [mst|e]; simpl.
  2:{ exists [], false. simpl. rewrite app_nil_r.
      repeat split; [done|by intros [? ?]|by eexists]. }
  destruct (quiet_for_each (reconcile unidecode mst
              (table_lookup (book st) (txt "CURRENCY") (txt "PLN")))
              (get_commodities (book st) (txt "FUND"))
              (quiet_reconcile _ _ _) st) as (evs & Hl & Hq).
  destruct (for_each _ _ st) as [[[]|e] st1]; simpl in *.
  - exists evs, true. unfold session_save, mbind, M_bind, emit, lift. simpl.
    destruct (save_error w); simpl; rewrite Hl, <-app_assoc; done.
  - exists evs, false. simpl. rewrite app_nil_r.
    repeat split; [done..|by intros [? ?]|by eexists].
Qed.

(** C8: a run that opens a session logs, after whatever the loop printed
    and added, at most one [session.save()], and then always
    [session.end()] and [session.destroy()], whether the [try] block was
    left normally or by an exception; the run ends with status 0 only if
    the save was made, and a run without the save ends by an exception. *)
Theorem session_saved_once_and_closed unidecode argv w b
  (Hargv : (2 ≤ length argv)%nat) (Hsession : session w = Ok b) :
  ∃ o evs (saved : bool) b',
    main unidecode argv w
    = (o, evs ++ (if saved then [SessionSave] else [])
              ++ [SessionEnd; SessionDestroy], Some b')
    ∧ Forall (λ e, session_event e = false) evs
    ∧ (o = Exit 0 → saved = true)
    ∧ (saved = false → ∃ e, o = Uncaught e).
Proof.
  unfold main. destruct (Nat.ltb_spec (length argv) 2) as [?|_]; [lia|].
  rewrite Hsession.
  destruct (try_block_log unidecode w {| book := b; log := [] |})
    as (evs & saved & Hl & Hq & Hok & Hno).
  destruct (try_block _ _ _) as [r st]. simpl in *.
  unfold finally_block, mbind, M_bind, emit. simpl.
  eexists _, evs, saved, _. split; [|split; [done|split]].
  - rewrite Hl, <-!app_assoc. simpl. reflexivity.
  - destruct r as [[]|e]; [|done]. intros _. apply Hok. by eexists.
  - intros Hs. destruct (Hno Hs) as [e ->]. by eexists.
Qed.

(** ** A fund without a quote *)

Section PerFund.

Variable unidecode : list ascii → list ascii.
Variables (mst : MstFun) (cur : option GncCommodity) (cmdt : GncCommodity).

Lemma get_fund_price_absent name :
  fund_to_file_date mst !! name = None → get_fund_price mst name = Ok None.
Proof. unfold get_fund_price. by intros ->. Qed.

Lemma get_fund_price_missing name file d :
  fund_to_file_date mst !! name = Some (file, d) →
  mstfun mst !! file = None →
  get_fund_price mst name = Raise (KeyError file).
Proof. unfold get_fund_price, zip_open. by intros -> ->. Qed.

Lemma get_fund_price_unreadable name file d f e :
  fund_to_file_date mst !! name = Some (file, d) →
  mstfun mst !! file = Some f →
  read_csv f [DTYYYYMMDD; CLOSE] = Raise e →
  get_fund_price mst name = Raise e.
Proof.
  intros H1 H2 H3. unfold get_fund_price, zip_open. rewrite H1, H2.
  cbv [mbind result_bind]. by rewrite H3.
Qed.

(** C2, as the code has it: for a commodity with a price in the ledger,
    a name the manifest does not have is reported and the loop goes on
    with the next commodity, the ledger untouched; but an exception of
    [get_fund_price] (the member is not in the archive, its table cannot
    be read) is not caught: the loop ends there with that exception, the
    remaining commodities are not visited and nothing is printed. *)
Theorem per_fund_problems st pl rest
  (Hpl : lookup_latest (book st) cmdt cur = Some pl) :
  let name := unidecode (fullname cmdt) in
  let loop := for_each (reconcile unidecode mst cur) in
  (fund_to_file_date mst !! name = None →
     loop (cmdt :: rest) st
     = loop rest
         {| book := book st;
            log := log st
                   ++ [Print (SkippingNotAvailable (fullname cmdt))] |})
  ∧ (∀ e, get_fund_price mst name = Raise e →
          loop (cmdt :: rest) st = (Raise e, st))
  ∧ (∀ file d,
       fund_to_file_date mst !! name = Some (file, d) →
       (mstfun mst !! file = None →
          loop (cmdt :: rest) st = (Raise (KeyError file), st))
       ∧ (∀ f e, mstfun mst !! file = Some f →
                 read_csv f [DTYYYYMMDD; CLOSE] = Raise e →
                 loop (cmdt :: rest) st = (Raise e, st))).
Proof.
  intros name loop.
  assert (Hraise : ∀ e, get_fund_price mst name = Raise e →
                        loop (cmdt :: rest) st = (Raise e, st)).
  { intros e He. apply for_each_cons_Raise.
    by apply reconcile_raises with pl. }
  split; [|split; [done|]].
  - intros Hnone. apply for_each_cons_Ok.
    apply reconcile_not_available with pl; [done|].
    by apply get_fund_price_absent.
  - intros file d Hf. split.
    + intros Hz. apply Hraise. by apply get_fund_price_missing with d.
    + intros f e Hz He. apply Hraise.
      by apply get_fund_price_unreadable with file d f.
Qed.

End PerFund.

(** ** The conversion of the price *)

Lemma ndigits_fuel_le f n k :
  (n < 10 ^ N.of_nat k)%N → ndigits_fuel f n ≤ Z.of_nat k.
Proof.
  revert n k. induction f as [|f IH]; intros n k Hn; simpl; [lia|].
  destruct (N.eqb_spec n 0) as [->|Hn0]; [lia|].
  destruct k as [|k].
  - simpl in Hn. lia.
  - assert (n / 10 < 10 ^ N.of_nat k)%N.
    { apply N.Div0.div_lt_upper_bound.
      rewrite Nat2N.inj_succ, N.pow_succ_r' in Hn. lia. }
    specialize (IH _ _ H). lia.
Qed.

Lemma ndigits_le c : (c < 10 ^ 28)%N → ndigits c ≤ prec.
Proof. intros H. apply (ndigits_fuel_le _ c 28). exact H. Qed.

(** A result of at most 28 digits with an exponent in the range of the
    context is not rounded. *)
Lemma fix_exact s c e :
  (c < 10 ^ 28)%N → Etiny ≤ e ≤ Etop → fix_ s c e = Ok (Fin s c e).
Proof.
  intros Hc He. unfold fix_.
  destruct (N.eqb_spec c 0) as [->|Hc0].
  - do 3 f_equal. unfold Etiny, Etop, Emax, Emin, prec in *. lia.
  - pose proof (ndigits_le c Hc) as Hd.
    destruct (Z.ltb_spec Etop (ndigits c + e - prec)) as [?|_]; [lia|].
    destruct (Z.ltb_spec e (Z.max (ndigits c + e - prec) Etiny)) as [?|_];
      [lia|done].
Qed.

(** The integer the driver stores, when the product is exact. *)
Lemma to_num_exact s c e D :
  (c * Z.to_N (Z.abs D) < 10 ^ 28)%N → Etiny ≤ e ≤ Etop →
  to_num (Fin s c e) D
  = Ok (signed (xorb s (D <? 0))
          (if 0 <=? e then Z.of_N (c * Z.to_N (Z.abs D)) * 10 ^ e
           else Z.of_N (round_half_even (c * Z.to_N (Z.abs D)) (- e)))).
Proof.
  intros Hc He. unfold to_num, Decimal_mul_int.
  rewrite fix_exact by done. cbv [mbind result_bind to_integral].
  destruct (Z.leb_spec 0 e) as [H0|H0]; simpl.
  - destruct (Z.leb_spec 0 e); [done|lia].
  - by rewrite Z.mul_1_r.
Qed.

(** [round_half_even c k] is the integer nearest to [c / 10^k], and the
    even one of the two when they are equally near. *)
Lemma round_half_even_nearest c k :
  0 ≤ k →
  let d := Z.of_N (round_half_even c k) * 10 ^ k - Z.of_N c in
  2 * Z.abs d < 10 ^ k
  ∨ (2 * Z.abs d = 10 ^ k ∧ Z.even (Z.of_N (round_half_even c k)) = true).
Proof.
  intros Hk d. subst d. unfold round_half_even.
  set (p := (10 ^ Z.to_N k)%N).
  assert (Hp : Z.of_N p = 10 ^ k).
  { unfold p. rewrite N2Z.inj_pow, Z2N.id by done. done. }
  assert (Hp0 : (p ≠ 0)%N) by (unfold p; apply N.pow_nonzero; lia).
  pose proof (N.div_mod c p Hp0) as Hdm.
  pose proof (N.mod_lt c p Hp0) as Hr.
  set (q := (c / p)%N) in *. set (r := (c mod p)%N) in *.
  rewrite <-Hp. clearbody p q r.
  destruct (N.compare_spec (2 * r) p) as [He|Hl|Hg].
  - destruct (N.even q) eqn:Hq.
    + right. split; [nia|].
      apply N.even_spec in Hq as [x ->]. apply Z.even_spec.
      exists (Z.of_N x). lia.
    + right. split; [nia|].
      assert (Ho : N.odd q = true) by (by rewrite <-N.negb_even, Hq).
      apply N.odd_spec in Ho as [x ->]. apply Z.even_spec.
      exists (Z.of_N x + 1). lia.
  - left. nia.
  - left. nia.
Qed.

Lemma Qinv_inject_Z p : 0 < p → (/ inject_Z p == 1 # Z.to_pos p)%Q.
Proof. intros Hp. destruct p; try lia. done. Qed.

Lemma Decimal_value_scaled s c e D :
  (0 ≤ e →
   (Decimal_value s c e * inject_Z D
    == inject_Z (signed s (Z.of_N c) * 10 ^ e * D))%Q)
  ∧ (e < 0 →
     (Decimal_value s c e * inject_Z D
      == signed s (Z.of_N c) * D # Z.to_pos (10 ^ (- e)))%Q).
Proof.
  unfold Decimal_value. split; intros He.
  - rewrite <-Zpower_Qpower by done. by rewrite !inject_Z_mult.
  - destruct e as [|e|e]; try lia. simpl Qpower. simpl Z.opp.
    change (Qpower_positive (inject_Z 10) e) with (inject_Z 10 ^ Z.pos e)%Q.
    rewrite <-Zpower_Qpower by done.
    rewrite Qinv_inject_Z by (by apply Z.pow_pos_nonneg).
    unfold Qeq, Qmult, inject_Z. simpl.
    change (- Z.neg e) with (Z.pos e).
    rewrite Pos.mul_1_l, Pos.mul_1_r. ring.
Qed.

Lemma near_fraction a n (p : positive) :
  ((2 * Z.abs (n * Z.pos p - a) < Z.pos p
    → (Qabs (inject_Z n - (a # p)) < 1 # 2)%Q)
   ∧ (2 * Z.abs (n * Z.pos p - a) = Z.pos p
      → (Qabs (inject_Z n - (a # p)) == 1 # 2)%Q)).
Proof.
  unfold Qlt, Qeq, Qabs, Qminus, Qplus, Qopp, inject_Z. simpl.
  split; intros H; lia.
Qed.

Lemma rounds_to_le x n : rounds_to x n → (Qabs (inject_Z n - x) <= 1 # 2)%Q.
Proof. intros [H|[H _]]; [by apply Qlt_le_weak|by rewrite H]. Qed.

Lemma to_num_rounds s c e D :
  0 < D → Z.of_N c * D < 10 ^ 28 → Etiny ≤ e ≤ Etop →
  ∃ n, to_num (Fin s c e) D = Ok n
       ∧ rounds_to (Decimal_value s c e * inject_Z D) n.
Proof.
  intros HD Hc He.
  assert (Hm : Z.of_N (c * Z.to_N (Z.abs D)) = Z.of_N c * D) by lia.
  eexists. split.
  { apply to_num_exact; [|done]. apply N2Z.inj_lt. rewrite Hm. done. }
  destruct (Z.ltb_spec D 0) as [?|_]; [lia|]. rewrite xorb_false_r.
  destruct (Decimal_value_scaled s c e D) as [Hpos Hneg].
  destruct (Z.leb_spec 0 e) as [H0|H0]; unfold rounds_to.
  - left. rewrite (Hpos H0), Hm.
    replace (signed s (Z.of_N c * D * 10 ^ e))
      with (signed s (Z.of_N c) * 10 ^ e * D) by (destruct s; simpl; ring).
    unfold Qminus. by rewrite Qplus_opp_r.
  - rewrite (Hneg H0).
    pose proof (round_half_even_nearest (c * Z.to_N (Z.abs D)) (- e)
                  ltac:(lia)) as Hr.
    simpl in Hr. rewrite Hm in Hr.
    set (q := Z.of_N (round_half_even _ _)) in *.
    set (p := Z.to_pos (10 ^ (- e))).
    assert (Hp : Z.pos p = 10 ^ (- e)).
    { unfold p. rewrite Z2Pos.id; [done|]. apply Z.pow_pos_nonneg; lia. }
    rewrite <-Hp in Hr.
    assert (Habs : Z.abs (signed s q * Z.pos p - signed s (Z.of_N c) * D)
                   = Z.abs (q * Z.pos p - Z.of_N c * D))
      by (destruct s; simpl; lia).
    assert (Hev : Z.even (signed s q) = Z.even q)
      by (destruct s; simpl; [apply Z.even_opp|done]).
    destruct (near_fraction (signed s (Z.of_N c) * D) (signed s q) p)
      as [Hlt Heq].
    rewrite Habs in Hlt, Heq. rewrite Hev.
    destruct Hr as [Hr|[Hr Hq]]; [left; by apply Hlt|right].
    split; [by apply Heq|done].
Qed.

Lemma within_denominator (v : Q) (n D : Z) :
  0 < D → (Qabs (inject_Z n - v * inject_Z D) <= 1 # 2)%Q →
  (Qabs (inject_Z n / inject_Z D - v) < 1 / inject_Z D)%Q.
Proof.
  intros HD H.
  assert (H0 : (0 < inject_Z D)%Q) by (unfold Qlt; simpl; lia).
  assert (Hne : ¬ (inject_Z D == 0)%Q) by (intros E; rewrite E in H0; done).
  assert (Hi : (0 < / inject_Z D)%Q) by by apply Qinv_lt_0_compat.
  assert (E : (inject_Z n / inject_Z D - v
               == (inject_Z n - v * inject_Z D) * / inject_Z D)%Q)
    by (field; done).
  rewrite E, Qabs_Qmult, (Qabs_pos (/ inject_Z D)) by by apply Qlt_le_weak.
  apply Qle_lt_trans with ((1 # 2) * / inject_Z D)%Q.
  - apply Qmult_le_compat_r; [done|by apply Qlt_le_weak].
  - unfold Qdiv. by apply Qmult_lt_r.
Qed.

(** C5, as the code has it: when the denominator D of the price in the
    ledger is positive and the product of the quote's coefficient and D has
    at most 28 digits (the precision of the decimal context), with the
    exponent in the range of the context, the numerator stored is
    price * D rounded to an integral value (to the nearest integer, to the
    even one on a tie), the denominator stays D, and numerator / D is
    within 1 / D of the price. *)
Theorem price_conversion s c e D
  (HD : 0 < D) (Hprec : Z.of_N c * D < 10 ^ 28) (He : Etiny ≤ e ≤ Etop) :
  ∃ n, to_num (Fin s c e) D = Ok n
       ∧ rounds_to (Decimal_value s c e * inject_Z D) n
       ∧ (Qabs (inject_Z n / inject_Z D - Decimal_value s c e)
          < 1 / inject_Z D)%Q
       ∧ ∀ unidecode mst cur cmdt st pl old day,
           lookup_latest (book st) cmdt cur = Some pl →
           prices (book st) !! pl = Some old →
           denom (value old) = D →
           get_fund_price mst (unidecode (fullname cmdt))
           = Ok (Some (Fin s c e, day)) →
           date_lt (time old) day →
           value <$> prices (book (reconcile unidecode mst cur cmdt st).2) !! pl
           = Some {| num := n; denom := D |}.
Proof.
  destruct (to_num_rounds s c e D HD Hprec He) as (n & Hn & Hr).
  exists n. split; [done|]. split; [done|]. split.
  - apply within_denominator; [done|]. by apply rounds_to_le.
  - intros unidecode mst cur cmdt st pl old day Hpl Hold HDold Hq Hlt.
    rewrite (reconcile_update unidecode mst cur cmdt st pl old
               (Fin s c e) day n); try done.
    + simpl. rewrite lookup_insert_eq. simpl. by rewrite HDold.
    + by apply date_geb_false.
    + by rewrite HDold.
Qed.

(** C5 as stated fails for a price of thirty digits: the product with the
    denominator 100 is first rounded to 28 digits, 13.50...0, and that is
    rounded to 14, while price * 100 = 13.4999...9 rounds to 13. *)
Lemma long_price_rounded_twice :
  Decimal_of_str (txt "0.134999999999999999999999999999")
  = Ok (Fin false 134999999999999999999999999999 (-30))
  ∧ to_num (Fin false 134999999999999999999999999999 (-30)) 100 = Ok 14
  ∧ ¬ rounds_to
        (Decimal_value false 134999999999999999999999999999 (-30)
         * inject_Z 100) 14
  ∧ rounds_to
      (Decimal_value false 134999999999999999999999999999 (-30)
       * inject_Z 100) 13.
Proof.
  split; [by vm_compute|]. split; [by vm_compute|].
  assert (Hfar : (1 # 2 < Qabs (inject_Z 14
                   - Decimal_value false 134999999999999999999999999999 (-30)
                     * inject_Z 100))%Q) by by vm_compute.
  split.
  - intros [H|[H _]].
    + apply (Qlt_irrefl (1 # 2)). by apply Qlt_trans with (2 := H).
    + rewrite H in Hfar. by apply (Qlt_irrefl (1 # 2)).
  - left. by vm_compute.
Qed.

(** ** A fund whose file is missing *)

(** C2 as stated fails when the file of a fund is not in the archive: the
    run ends with the [KeyError] of [ZipFile.open], nothing is printed for
    that fund, the next fund (listed, with a file and a newer quote) is not
    visited, and the ledger is not saved. *)
Lemma missing_member_aborts :
  fund_to_file_date Scenario.quotes2 !! txt "Lost Fund"
  = Some (txt "lost.csv", mkdate 2023 1 2)
  ∧ mstfun Scenario.quotes2 !! txt "lost.csv" = None
  ∧ MstFun_enter (urlopen_lst Scenario.net2) (urlopen_zip Scenario.net2)
    = Ok Scenario.quotes2
  ∧ main id Scenario.argv Scenario.net2
    = (Uncaught (KeyError (txt "lost.csv")), [SessionEnd; SessionDestroy],
       Some Scenario.ledger2)
  ∧ ¬ skipped_and_continued id Scenario.quotes2 Scenario.cur Scenario.lost
        [Scenario.fund] Scenario.start2.
Proof.
  split; [by vm_compute|]. split; [by vm_compute|].
  split; [by vm_compute|]. split; [by vm_compute|].
  intros [r Hr].
  destruct (quiet_for_each (reconcile id Scenario.quotes2 Scenario.cur)
              [Scenario.fund] (quiet_reconcile _ _ _)
              {| book := book Scenario.start2;
                 log := log Scenario.start2 ++ [Print r] |})
    as (evs & Hl & _).
  rewrite <-Hr in Hl. vm_compute in Hl. done.
Qed.

(** ** The record that is added *)

(** C3 on the code: when the quote is newer, the price object the driver
    changes and adds is the one [lookup_latest] returned.  The price it
    cloned keeps the old fields and is added to no database; the baseline
    itself now carries the date and the value of the quote, with its
    commodity, currency and denominator as before, and its reference is
    added to the database once more. *)
Theorem update_overwrites_baseline unidecode mst cur cmdt st pl old price day n
  (Hpl : lookup_latest (book st) cmdt cur = Some pl)
  (Hold : prices (book st) !! pl = Some old)
  (Hq : get_fund_price mst (unidecode (fullname cmdt))
        = Ok (Some (price, day)))
  (Hlt : date_lt (time old) day)
  (Hn : to_num price (denom (value old)) = Ok n) :
  let st' := (reconcile unidecode mst cur cmdt st).2 in
  let clone := fresh (dom (prices (book st))) in
  log st' = log st ++ [Print (Updating (fullname cmdt) price day); AddPrice pl]
  ∧ pricedb (book st') = pricedb (book st) ++ [pl]
  ∧ prices (book st') !! pl
    = Some {| commodity := commodity old; currency := currency old;
              time := day;
              value := {| num := n; denom := denom (value old) |} |}
  ∧ prices (book st') !! pl ≠ Some old
  ∧ clone ≠ pl
  ∧ prices (book st') !! clone = Some old.
Proof.
  intros st' clone. subst st'.
  assert (Hne : clone ≠ pl).
  { intros E. apply (is_fresh (dom (prices (book st)))). fold clone.
    rewrite E. by apply elem_of_dom_2 with old. }
  rewrite (reconcile_update unidecode mst cur cmdt st pl old price day n);
    [|done..|by apply date_geb_false|done]. simpl.
  rewrite lookup_insert_eq, lookup_insert_ne, lookup_insert_eq by done.
  repeat split; try done.
  intros [= E]. destruct old as [c1 c2 t v]. simpl in *.
  injection E as -> _. unfold date_lt in Hlt. lia.
Qed.

(** ** The last record of a price file *)

Lemma last_map_snoc {A B} (f : A → B) l x : last (map f (l ++ [x])) = Some (f x).
Proof. rewrite map_app. simpl. apply last_snoc. Qed.

(** In a header that has each label of [usecols] once at most, the
    selected labels are the labels of [usecols] in the order of the
    file. *)
Lemma labels_from_filter usecols seen cols :
  NoDup (filter (λ c, c ∈ usecols) cols) →
  (∀ c, c ∈ seen → c ∈ usecols → c ∉ cols) →
  labels_from usecols seen cols = filter (λ c, c ∈ usecols) cols.
Proof.
  revert seen. induction cols as [|c cs IH]; intros seen Hnd Hseen; [done|].
  simpl. destruct (decide (c ∈ usecols)) as [Hc|Hc].
  - rewrite filter_cons_True in Hnd |- * by done.
    apply NoDup_cons in Hnd as [Hnew Hnd].
    assert (c ∉ cs).
    { intros Hin. apply Hnew. by apply list_elem_of_filter. }
    rewrite bool_decide_eq_true_2.
    + f_equal. apply IH; [done|].
      intros c' [->|Hc']%elem_of_cons Hu; [done|].
      specialize (Hseen c' Hc' Hu). by apply not_elem_of_cons in Hseen as [_ ?].
    + split; [done|]. intros Hs. apply (Hseen c Hs Hc). by left.
  - rewrite filter_cons_False in Hnd |- * by done.
    rewrite bool_decide_eq_false_2 by (by intros [? _]).
    apply IH; [done|].
    intros c' [->|Hc']%elem_of_cons Hu; [done|].
    specialize (Hseen c' Hc' Hu). by apply not_elem_of_cons in Hseen as [_ ?].
Qed.

(** A price file whose two columns come with the date first gives the two
    cells of its last record, the price through [Decimal] and the date
    through [strptime]; no other record is read. *)
Lemma get_fund_price_last_row mst name file d t rs r dtext ptext :
  fund_to_file_date mst !! name = Some (file, d) →
  mstfun mst !! file = Some (Csv t) →
  filter (λ c, c ∈ [DTYYYYMMDD; CLOSE]) (columns t) = [DTYYYYMMDD; CLOSE] →
  rows t = rs ++ [r] →
  select [DTYYYYMMDD; CLOSE] (columns t) r = [Str dtext; Str ptext] →
  get_fund_price mst name
  = (price ← Decimal_of_str ptext;
     day ← strptime_Ymd dtext;
     Ok (Some (price, day))).
Proof.
  intros Hf Hz Hcols Hrows Hr. unfold get_fund_price, zip_open.
  rewrite Hf, Hz. cbv [mbind result_bind read_csv].
  assert (Hin : ∀ u, u ∈ [DTYYYYMMDD; CLOSE] → u ∈ columns t).
  { intros u Hu. rewrite <-Hcols in Hu.
    by apply list_elem_of_filter in Hu as [_ ?]. }
  assert (Hall : forallb (λ u, bool_decide (u ∈ columns t))
                   [DTYYYYMMDD; CLOSE] = true).
  { simpl. rewrite !bool_decide_eq_true_2; [done|apply Hin..]; set_solver. }
  rewrite Hall, labels_from_filter, Hcols, Hrows.
  - cbv [set_columns]. simpl length.
    rewrite Nat.eqb_refl. cbv [iloc_last]. simpl rows.
    rewrite last_map_snoc, Hr. done.
  - rewrite Hcols. apply (bool_decide_unpack (NoDup [DTYYYYMMDD; CLOSE])).
    by vm_compute.
  - by intros c Hc%elem_of_nil.
Qed.

(** C4 on the code: the columns are selected by name and then relabelled
    by position, in the order of the file.  On the price file of the
    scenario the quote is the last record's; on the same file with the
    closing price before the date, the closing price is parsed as the date
    and the call raises. *)
Theorem columns_relabelled_by_position :
  get_fund_price Scenario.quotes (txt "Example Fund")
  = Ok (Some (Fin false 1050 (-2), mkdate 2023 1 2))
  ∧ get_fund_price Scenario.quotes_close_first (txt "Example Fund")
    = Raise (ValueError (txt "time data does not match format"))
  ∧ (d ← read_csv (Csv Scenario.table_close_first) [DTYYYYMMDD; CLOSE];
     d ← set_columns d [txt "date"; txt "price"];
     '(labels, r) ← iloc_last d;
     Ok (field labels r (txt "price"), field labels r (txt "date")))
    = Ok (Str (txt "20230102"), Str (txt "10.50")).
Proof. repeat split; by vm_compute. Qed.

(** ** The properties on the data of the scenario *)

Lemma insert_iff_newer_witness :
  ∃ r evs st',
    reconcile id Scenario.quotes Scenario.cur Scenario.fund Scenario.start
    = (r, st')
    ∧ log st' = log Scenario.start ++ evs
    ∧ ((∃ p, AddPrice p ∈ evs)
       ↔ date_lt (time Scenario.baseline) (mkdate 2023 1 2)
         ∧ is_Ok (to_num (Fin false 1050 (-2))
                    (denom (value Scenario.baseline)))).
Proof.
  assert (H1 : lookup_latest (book Scenario.start) Scenario.fund Scenario.cur
               = Some 0%nat) by (vm_compute; reflexivity).
  assert (H2 : prices (book Scenario.start) !! 0%nat = Some Scenario.baseline)
    by (vm_compute; reflexivity).
  assert (H3 : get_fund_price Scenario.quotes (id (fullname Scenario.fund))
               = Ok (Some (Fin false 1050 (-2), mkdate 2023 1 2)))
    by (vm_compute; reflexivity).
  destruct (insert_iff_newer id Scenario.quotes Scenario.cur Scenario.fund
              Scenario.start 0%nat Scenario.baseline (Fin false 1050 (-2))
              (mkdate 2023 1 2) H1 H2 H3)
    as (r & evs & st' & Hr & Hl & Hiff & _).
  exists r, evs, st'. split; [exact Hr|]. split; [exact Hl|exact Hiff].
Defined.

(** C1 as stated fails for a quote that is newer than the price of the
    ledger and whose closing price is a signaling NaN: the quote is
    resolved and T1 < T2, but the product with the denominator raises
    [InvalidOperation], so that nothing is added to the price database. *)
Lemma unconvertible_quote_not_inserted :
  lookup_latest (book Scenario.start) Scenario.fund Scenario.cur = Some 0%nat
  ∧ prices (book Scenario.start) !! 0%nat = Some Scenario.baseline
  ∧ get_fund_price Cases.quotes_snan (id (fullname Scenario.fund))
    = Ok (Some (NaN true, mkdate 2023 1 2))
  ∧ date_lt (time Scenario.baseline) (mkdate 2023 1 2)
  ∧ (reconcile id Cases.quotes_snan Scenario.cur Scenario.fund
       Scenario.start).1 = Raise InvalidOperation
  ∧ log (reconcile id Cases.quotes_snan Scenario.cur Scenario.fund
           Scenario.start).2
    = [Print (Updating (txt "Example Fund") (NaN true) (mkdate 2023 1 2))]
  ∧ pricedb (book (reconcile id Cases.quotes_snan Scenario.cur
                     Scenario.fund Scenario.start).2)
    = pricedb (book Scenario.start)
  ∧ ¬ ∃ p, AddPrice p
           ∈ log (reconcile id Cases.quotes_snan Scenario.cur Scenario.fund
                    Scenario.start).2.
Proof.
  assert (Hl : log (reconcile id Cases.quotes_snan Scenario.cur Scenario.fund
                      Scenario.start).2
               = [Print (Updating (txt "Example Fund") (NaN true)
                           (mkdate 2023 1 2))]) by by vm_compute.
  split; [by vm_compute|]. split; [by vm_compute|]. split; [by vm_compute|].
  split; [unfold date_lt; simpl; lia|]. split; [by vm_compute|].
  split; [exact Hl|]. split; [by vm_compute|].
  intros [p Hp]. rewrite Hl in Hp. by apply list_elem_of_singleton in Hp.
Qed.

Lemma per_fund_problems_witness :
  lookup_latest (book Scenario.start2) Scenario.lost Scenario.cur = Some 0%nat
  ∧ for_each (reconcile id Scenario.quotes2 Scenario.cur)
      [Scenario.lost; Scenario.fund] Scenario.start2
    = (Raise (KeyError (txt "lost.csv")), Scenario.start2).
Proof.
  assert (H1 : lookup_latest (book Scenario.start2) Scenario.lost Scenario.cur
               = Some 0%nat) by (vm_compute; reflexivity).
  split; [exact H1|].
  destruct (per_fund_problems id Scenario.quotes2 Scenario.cur Scenario.lost
              Scenario.start2 0%nat [Scenario.fund] H1) as (_ & _ & H).
  destruct (H (txt "lost.csv") (mkdate 2023 1 2)) as [Hmissing _].
  - vm_compute; reflexivity.
  - apply Hmissing. vm_compute; reflexivity.
Defined.

Lemma price_conversion_witness :
  ∃ n, to_num (Fin false 1050 (-2)) 100 = Ok n
       ∧ rounds_to (Decimal_value false 1050 (-2) * inject_Z 100) n
       ∧ (Qabs (inject_Z n / inject_Z 100 - Decimal_value false 1050 (-2))
          < 1 / inject_Z 100)%Q.
Proof.
  assert (H1 : 0 < 100) by lia.
  assert (H2 : Z.of_N 1050 * 100 < 10 ^ 28) by (vm_compute; reflexivity).
  assert (H3 : Etiny ≤ -2 ≤ Etop) by (split; vm_compute; discriminate).
  destruct (price_conversion false 1050 (-2) 100 H1 H2 H3)
    as (n & Hn & Hr & Hd & _).
  exists n. split; [exact Hn|]. split; [exact Hr|exact Hd].
Defined.

Lemma session_saved_once_and_closed_witness :
  ∃ o evs (saved : bool) b',
    main id Scenario.argv Scenario.net
    = (o, evs ++ (if saved then [SessionSave] else [])
              ++ [SessionEnd; SessionDestroy], Some b')
    ∧ Forall (λ e, session_event e = false) evs
    ∧ (o = Exit 0 → saved = true)
    ∧ (saved = false → ∃ e, o = Uncaught e).
Proof.
  apply (session_saved_once_and_closed id Scenario.argv Scenario.net
           Scenario.ledger).
  - simpl. lia.
  - reflexivity.
Defined.

Lemma update_overwrites_baseline_witness :
  let st' := (reconcile id Scenario.quotes Scenario.cur Scenario.fund
                Scenario.start).2 in
  log st' = [Print (Updating (txt "Example Fund") (Fin false 1050 (-2))
                      (mkdate 2023 1 2)); AddPrice 0%nat]
  ∧ pricedb (book st') = [0%nat; 0%nat]
  ∧ prices (book st') !! 0%nat
    = Some {| commodity := Scenario.fund; currency := Scenario.PLN;
              time := mkdate 2023 1 2;
              value := {| num := 1050; denom := 100 |} |}.
Proof.
  assert (H1 : lookup_latest (book Scenario.start) Scenario.fund Scenario.cur
               = Some 0%nat) by (vm_compute; reflexivity).
  assert (H2 : prices (book Scenario.start) !! 0%nat = Some Scenario.baseline)
    by (vm_compute; reflexivity).
  assert (H3 : get_fund_price Scenario.quotes (id (fullname Scenario.fund))
               = Ok (Some (Fin false 1050 (-2), mkdate 2023 1 2)))
    by (vm_compute; reflexivity).
  assert (H4 : date_lt (time Scenario.baseline) (mkdate 2023 1 2))
    by (unfold date_lt; simpl; lia).
  assert (H5 : to_num (Fin false 1050 (-2)) (denom (value Scenario.baseline))
               = Ok 1050) by (vm_compute; reflexivity).
  destruct (update_overwrites_baseline id Scenario.quotes Scenario.cur
              Scenario.fund Scenario.start 0%nat Scenario.baseline
              (Fin false 1050 (-2)) (mkdate 2023 1 2) 1050 H1 H2 H3 H4 H5)
    as (Hl & Hdb & Hp & _).
  split; [exact Hl|]. split; [exact Hdb|exact Hp].
Defined.

Lemma parse_entries_witness :
  ∃ m, parse Scenario.lst = Ok m
       ∧ dom m = list_to_set [txt "Example Fund"]
       ∧ Z.of_nat (size m) = Z.of_nat (length (splitlines Scenario.lst)) - 5
       ∧ m !! txt "Example Fund" = Some (txt "fund.csv", mkdate 2023 1 2).
Proof.
  pose (e := (txt "Example Fund", (txt "fund.csv", mkdate 2023 1 2))).
  destruct (parse_entries Scenario.lst
              [txt "h1"; txt "h2"; txt "h3"]
              [txt "2023-01-02  x  x  x  fund.csv  Example Fund"]
              [txt "t1"; txt "t2"] [e])
    as (m & Hm & Hdom & _ & Hsize & Hlast).
  - vm_compute; reflexivity.
  - reflexivity.
  - reflexivity.
  - constructor; [vm_compute; reflexivity|constructor].
  - exists m. split; [exact Hm|]. split; [exact Hdom|]. split.
    + apply Hsize. repeat constructor. set_solver.
    + apply (Hlast [] _ _ []); [reflexivity|]. set_solver.
Defined.

Lemma parse_bad_line_witness :
  let text := txt ("h1" ++ Scenario.nl ++ "h2" ++ Scenario.nl ++ "h3"
                   ++ Scenario.nl
                   ++ "2023-01-02  x  x  x  fund.csv  Example Fund"
                   ++ Scenario.nl ++ "no record here" ++ Scenario.nl
                   ++ "t1" ++ Scenario.nl ++ "t2") in
  parse text
  = Raise (Exception
             (txt "Could not extract information fromlst's line: "
              ++ txt "no record here")).
Proof.
  intros text.
  assert (Hb : body_lines (splitlines text)
               = [txt "2023-01-02  x  x  x  fund.csv  Example Fund"]
                 ++ txt "no record here" :: [])
    by (vm_compute; reflexivity).
  assert (Hin : txt "no record here" ∈ body_lines (splitlines text)).
  { rewrite Hb. apply elem_of_app. right. constructor. }
  assert (Hbad : pat_match (txt "no record here") = None)
    by (vm_compute; reflexivity).
  destruct (parse_bad_line text (txt "no record here") Hin Hbad)
    as (_ & _ & H).
  apply (H _ _ [(txt "Example Fund", (txt "fund.csv", mkdate 2023 1 2))] Hb).
  constructor; [vm_compute; reflexivity|constructor].
Defined.

(** C6 as stated fails when a line before the unmatched one is matched by
    the pattern but dated the 30th of February: [strptime] raises first,
    and its message does not hold the unmatched line (nor any line). *)
Lemma impossible_date_hides_bad_line :
  let text := txt ("h1" ++ Scenario.nl ++ "h2" ++ Scenario.nl ++ "h3"
                   ++ Scenario.nl
                   ++ "2023-02-30  x  x  x  fund.csv  Example Fund"
                   ++ Scenario.nl ++ "no record here" ++ Scenario.nl
                   ++ "t1" ++ Scenario.nl ++ "t2") in
  txt "no record here" ∈ body_lines (splitlines text)
  ∧ pat_match (txt "no record here") = None
  ∧ parse text = Raise (ValueError (txt "day is out of range for month"))
  ∧ ¬ ∃ before after,
        txt "day is out of range for month"
        = before ++ txt "no record here" ++ after.
Proof.
  intros text.
  assert (Hb : body_lines (splitlines text)
               = [txt "2023-02-30  x  x  x  fund.csv  Example Fund";
                  txt "no record here"]) by (vm_compute; reflexivity).
  split; [rewrite Hb; by right; left|].
  split; [by vm_compute|]. split; [by vm_compute|].
  intros (before & after & E).
  assert (Hc : "c"%char ∈ txt "day is out of range for month").
  { rewrite E. apply elem_of_app. right. apply elem_of_app. left.
    apply list_elem_of_In. vm_compute. tauto. }
  apply list_elem_of_In in Hc. vm_compute in Hc.
  repeat (destruct Hc as [Hc|Hc]; [discriminate Hc|]). done.
Qed.

Lemma one_character_name_fails_witness :
  pat_match (txt "2023-01-03  x  x  x  b.csv  E ") = None
  ∧ pat_match (txt "2023-01-03  x  x  x  b.csv  Ex ")
    = Some (txt "2023-01-03", txt "b.csv", txt "Ex").
Proof.
  split; [|vm_compute; reflexivity].
  assert (Hb : blank (txt "  ")) by (split; [discriminate|repeat constructor]).
  assert (Hx : token (txt "x")) by (split; [discriminate|repeat constructor]).
  assert (Hf : token (txt "b.csv"))
    by (split; [discriminate|repeat constructor]).
  apply (one_character_name_fails (txt "2023-01-03") (txt "  ") (txt "x")
           (txt "  ") (txt "x") (txt "  ") (txt "x") (txt "  ")
           (txt "b.csv") (txt "  ") "E"%char (txt " ")
           eq_refl Hb Hx Hb Hx Hb Hx Hb Hf Hb eq_refl).
  repeat constructor.
Defined.

Lemma manifest_date_never_read_witness :
  let text2 :=
    txt ("h1" ++ Scenario.nl ++ "h2" ++ Scenario.nl ++ "h3" ++ Scenario.nl
         ++ "1999-12-31  x  x  x  fund.csv  Example Fund" ++ Scenario.nl
         ++ "t1" ++ Scenario.nl ++ "t2" ++ Scenario.nl) in
  let m2 : manifest :=
    {[ txt "Example Fund" := (txt "fund.csv", mkdate 1999 12 31) ]} in
  parse text2 = Ok m2
  ∧ ∀ name,
      get_fund_price
        {| fund_to_file_date := fund_to_file_date Scenario.quotes;
           mstfun := Scenario.zip |} name
      = get_fund_price
          {| fund_to_file_date := m2; mstfun := Scenario.zip |} name.
Proof.
  intros text2 m2.
  assert (H1 : parse Scenario.lst = Ok (fund_to_file_date Scenario.quotes))
    by (vm_compute; reflexivity).
  assert (H2 : parse text2 = Ok m2) by (vm_compute; reflexivity).
  split; [exact H2|].
  assert (Hl : Forall2 same_but_date (body_lines (splitlines Scenario.lst))
                 (body_lines (splitlines text2))).
  { change (Forall2 same_but_date
              [txt "2023-01-02" ++ txt "  x  x  x  fund.csv  Example Fund"]
              [txt "1999-12-31" ++ txt "  x  x  x  fund.csv  Example Fund"]).
    constructor; [|constructor].
    exists (txt "2023-01-02"), (txt "1999-12-31"),
      (txt "  x  x  x  fund.csv  Example Fund").
    repeat split. }
  destruct (manifest_date_never_read Scenario.lst text2 _ _ Hl H1 H2)
    as [_ H].
  intros name. destruct (H Scenario.zip) as [Hq _]. apply Hq.
Defined.

(** ** The texts of a price and of a date *)

Lemma span_app c u rest :
  Forall (λ a, c a = true) u →
  match rest with [] => True | a :: _ => c a = false end →
  span c (u ++ rest) = (u, rest).
Proof.
  intros Hu Hr. induction Hu as [|a u Ha Hu IH]; simpl.
  - destruct rest as [|a rest]; [done|]. simpl. by rewrite Hr.
  - by rewrite Ha, IH.
Qed.

Lemma strip_id s :
  match s with [] => True | a :: _ => is_space a = false end →
  match rev s with [] => True | a :: _ => is_space a = false end →
  strip s = s.
Proof.
  intros H1 H2. unfold strip.
  assert (E : ∀ t, match t with [] => True | a :: _ => is_space a = false end
                   → span is_space t = ([], t)).
  { intros t Ht. by apply (span_app is_space [] t). }
  rewrite (E s H1). simpl. rewrite (E (rev s) H2). simpl.
  apply rev_involutive.
Qed.

Lemma digit_code a : is_digit a = true ↔ (48 ≤ code a ≤ 57)%nat.
Proof.
  unfold is_digit. rewrite andb_true_iff, !Nat.leb_le. done.
Qed.

Lemma digit_not_space a : is_digit a = true → is_space a = false.
Proof.
  rewrite digit_code. unfold is_space. intros H.
  apply orb_false_iff. split.
  - apply Nat.eqb_neq. lia.
  - apply andb_false_iff. right. apply Nat.leb_gt. lia.
Qed.

Lemma code_inj a b : code a = code b → a = b.
Proof.
  unfold code. intros H.
  by rewrite <-(ascii_nat_embedding a), <-(ascii_nat_embedding b), H.
Qed.

Lemma digit_not_chr a c :
  is_digit a = true → is_digit c = false → chr c a = false.
Proof.
  intros Ha Hc. unfold chr. apply Ascii.eqb_neq. by intros ->; congruence.
Qed.

(** The price: a numeral "digits.digits" is read as the decimal whose
    coefficient is the number its digits spell and whose exponent is minus
    the number of digits after the point: nothing is rounded and no binary
    fraction is involved. *)
Lemma Decimal_of_str_numeral ip fp :
  ip ≠ [] →
  Forall (λ a, is_digit a = true) ip → Forall (λ a, is_digit a = true) fp →
  Decimal_of_str (ip ++ "."%char :: fp)
  = Ok (Fin false (Z.to_N (int_of (ip ++ fp))) (- Z.of_nat (length fp))).
Proof.
  intros Hne Hip Hfp. unfold Decimal_of_str.
  rewrite strip_id.
  - destruct ip as [|a ip]; [done|]. simpl app.
    apply Forall_cons in Hip as [Ha Hip].
    rewrite (digit_not_chr a "-") by done.
    rewrite (digit_not_chr a "+") by done.
    change (a :: ip ++ "."%char :: fp) with ((a :: ip) ++ "."%char :: fp).
    rewrite (span_app is_digit (a :: ip) ("."%char :: fp))
      by (by constructor || done).
    change (chr "." "."%char) with true. cbv iota beta.
    rewrite <-(app_nil_r fp) at 1.
    rewrite (span_app is_digit fp []) by done.
    simpl app. cbv iota beta. simpl exponent_of. cbv iota beta.
    by rewrite Z.sub_0_l.
  - destruct ip as [|a ip]; [done|]. simpl.
    apply Forall_cons in Hip as [Ha _]. by apply digit_not_space.
  - rewrite rev_app_distr. simpl. rewrite <-app_assoc. simpl.
    destruct (rev fp) as [|b r] eqn:Hr; simpl; [done|].
    apply digit_not_space.
    assert (Hb : In b fp) by (apply in_rev; rewrite Hr; by left).
    apply list_elem_of_In in Hb.
    by apply (proj1 (Forall_forall _ _) Hfp).
Qed.

Lemma digit_cases a :
  is_digit a = true →
  a = "0"%char ∨ a = "1"%char ∨ a = "2"%char ∨ a = "3"%char ∨ a = "4"%char
  ∨ a = "5"%char ∨ a = "6"%char ∨ a = "7"%char ∨ a = "8"%char ∨ a = "9"%char.
Proof.
  intros H. destruct a as [[] [] [] [] [] [] [] []]; try discriminate H;
    repeat (try (left; reflexivity); right); reflexivity.
Qed.

Ltac each_digit a H :=
  destruct (digit_cases a H) as [?|[?|[?|[?|[?|[?|[?|[?|[?|?]]]]]]]]]; subst a.

(** The patterns of [%m] and [%d] on two digits each. *)
Lemma month_day_match m1 m2 d1 d2 :
  is_digit m1 = true → is_digit m2 = true →
  is_digit d1 = true → is_digit d2 = true →
  (1 <=? int_of [m1; m2]) && (int_of [m1; m2] <=? 12) = true →
  (1 <=? int_of [d1; d2]) && (int_of [d1; d2] <=? 31) = true →
  run [re_m; re_d] [m1; m2; d1; d2] = Some [[m1; m2]; [d1; d2]].
Proof.
  intros Hm1 Hm2 Hd1 Hd2 HM HD.
  each_digit m1 Hm1; each_digit m2 Hm2; try discriminate HM;
    each_digit d1 Hd1; each_digit d2 Hd2; try discriminate HD;
    reflexivity.
Qed.

(** The date: eight digits that spell a calendar day, YYYYMMDD, are read
    as that day. *)
Lemma strptime_Ymd_digits y1 y2 y3 y4 m1 m2 d1 d2 :
  Forall (λ a, is_digit a = true) [y1; y2; y3; y4; m1; m2; d1; d2] →
  valid_date (int_of [y1; y2; y3; y4]) (int_of [m1; m2]) (int_of [d1; d2])
  = true →
  strptime_Ymd [y1; y2; y3; y4; m1; m2; d1; d2]
  = Ok (mkdate (int_of [y1; y2; y3; y4]) (int_of [m1; m2]) (int_of [d1; d2])).
Proof.
  intros Hd Hv.
  repeat (apply Forall_cons in Hd as [? Hd]).
  assert (Hmd : run [re_m; re_d] [m1; m2; d1; d2] = Some [[m1; m2]; [d1; d2]]).
  { unfold valid_date in Hv.
    repeat (apply andb_true_iff in Hv as [Hv ?]).
    assert (days_in_month (int_of [y1; y2; y3; y4]) (int_of [m1; m2]) ≤ 31).
    { unfold days_in_month. repeat case_match; lia. }
    apply month_day_match; try done; apply andb_true_iff; split; lia. }
  unfold strptime_Ymd, strptime, re_Y. cbn [app].
  rewrite !run_One.
  repeat match goal with H : is_digit ?a = true |- _ => rewrite H; clear H end.
  rewrite Hmd. cbn [mbind option_bind length concat app Nat.eqb take nth
                    Nat.add Nat.mul].
  by rewrite Hv.
Qed.

(** * More of the code *)

(** ** A manifest of five lines or fewer *)

(** The slice [lines[3:-2]] of at most five lines is empty: the manifest
    parses to the empty mapping, whatever its lines hold. *)
Theorem short_manifest_is_empty text :
  (length (splitlines text) ≤ 5)%nat → parse text = Ok ∅.
Proof.
  intros H. unfold parse.
  assert (E : body_lines (splitlines text) = []).
  { apply nil_length_inv. rewrite length_body_lines. lia. }
  by rewrite E.
Qed.

Lemma short_manifest_is_empty_witness :
  parse (txt ("no" ++ Scenario.nl ++ "record" ++ Scenario.nl ++ "in"
              ++ Scenario.nl ++ "these" ++ Scenario.nl ++ "lines"))
  = Ok ∅.
Proof.
  apply short_manifest_is_empty. vm_compute. lia.
Defined.

(** ** What the line pattern finds *)

Lemma at_eol_space s : at_eol s = true → Forall (λ a, is_space a = true) s.
Proof.
  destruct s as [|a [|b s]]; simpl; [constructor| |done].
  intros H. apply Ascii.eqb_eq in H as ->. by repeat constructor.
Qed.

(** The groups of a match: the date is a date token at the start of the
    line; the file is a token; the name begins and ends with a character
    that is no blank, so it has two characters at least and no blank at
    either end; and after the name the line holds blanks only. *)
Theorem pat_match_fields l d f n :
  pat_match l = Some (d, f, n) →
  is_date_token d = true
  ∧ token f
  ∧ (∃ a mid b, n = a :: mid ++ [b]
                ∧ not_space a = true ∧ not_space b = true
                ∧ Forall (λ c, not_newline c = true) mid)
  ∧ ∃ fill w5 w6,
      l = d ++ fill ++ f ++ w5 ++ n ++ w6
      ∧ blank w5 ∧ Forall (λ a, is_space a = true) w6.
Proof.
  unfold pat_match.
  destruct (run date_file_name_pat l) as [ps|] eqn:Hr; [|done].
  apply run_parses in Hr. unfold date_file_name_pat in Hr. simpl in Hr.
  repeat match goal with
         | H : parses (_ :: _) _ _ |- _ => inversion H; clear H; subst
         end.
  match goal with H : parses [] _ _ |- _ => inversion H; clear H; subst end.
  simpl. intros [= <- <- <-].
  split; [|split; [|split]].
  - unfold is_date_token.
    repeat match goal with
           | H : is_digit _ = true |- _ => rewrite H; clear H
           | H : chr _ _ = true |- _ => rewrite H; clear H
           end.
    done.
  - done.
  - eexists _, _, _. by repeat split.
  - match goal with
    | |- ∃ _ _ _, _ :: _ :: _ :: _ :: _ :: _ :: _ :: _ :: _ :: _ ::
                    ?u1 ++ ?u2 ++ ?u3 ++ ?u4 ++ ?u5 ++ ?u6 ++ ?u7 ++ _ ++ ?u9
                    ++ _ :: ?u10 ++ _ :: ?u11 ++ ?s = _ ∧ _ =>
        exists (u1 ++ u2 ++ u3 ++ u4 ++ u5 ++ u6 ++ u7), u9, (u11 ++ s)
    end.
    split; [|split; [done|]].
    + simpl. rewrite <-!app_assoc. simpl. by rewrite <-?app_assoc.
    + apply Forall_app. split; [done|by apply at_eol_space].
Qed.

Lemma pat_match_fields_witness :
  pat_match (txt "2023-01-02  x  x  x  fund.csv  Example Fund ")
  = Some (txt "2023-01-02", txt "fund.csv", txt "Example Fund")
  ∧ is_date_token (txt "2023-01-02") = true
  ∧ token (txt "fund.csv")
  ∧ ∃ a mid b, txt "Example Fund" = a :: mid ++ [b]
               ∧ not_space a = true ∧ not_space b = true
               ∧ Forall (λ c, not_newline c = true) mid.
Proof.
  assert (H : pat_match (txt "2023-01-02  x  x  x  fund.csv  Example Fund ")
              = Some (txt "2023-01-02", txt "fund.csv", txt "Example Fund"))
    by (vm_compute; reflexivity).
  split; [exact H|].
  destruct (pat_match_fields _ _ _ _ H) as (Hd & Hf & Hn & _).
  split; [exact Hd|]. split; [exact Hf|exact Hn].
Defined.

(** ** A record line is matched *)

(** [c*] takes a whole run of [c] when what follows the run cannot begin
    with [c] and the rest of the pattern matches there. *)
Lemma star_greedy c k u v ps :
  Forall (λ a, c a = true) u →
  match v with [] => True | a :: _ => c a = false end →
  k v = Some ps →
  star c k (u ++ v) = Some (u :: ps).
Proof.
  intros Hu Hv Hk. induction Hu as [|a u Ha Hu IH]; simpl.
  - destruct v as [|b v]; simpl; [by rewrite Hk|]. by rewrite Hv, Hk.
  - by rewrite Ha, IH.
Qed.

Lemma run_Many_greedy c r u v ps :
  u ≠ [] → Forall (λ a, c a = true) u →
  match v with [] => True | a :: _ => c a = false end →
  run r v = Some ps →
  run (Many c :: r) (u ++ v) = Some (u :: ps).
Proof.
  intros Hne Hu Hv Hr. destruct u as [|a u]; [done|].
  apply Forall_cons in Hu as [Ha Hu]. simpl. rewrite Ha.
  by rewrite (star_greedy c (run r) u v ps).
Qed.

(** [c*] gives characters back until the rest of the pattern matches:
    the split it returns is the last one at which the rest matches. *)
Lemma star_None c k v :
  (∀ v1 v2, v = v1 ++ v2 → k v2 = None) → star c k v = None.
Proof.
  induction v as [|a v IH]; intros H; simpl.
  - by rewrite (H [] []).
  - rewrite IH by (intros v1 v2 ->; by apply (H (a :: v1) v2)).
    rewrite (H [] (a :: v)) by done. simpl. by destruct (c a).
Qed.

Lemma star_last c k u v ps :
  Forall (λ a, c a = true) u →
  k v = Some ps →
  (∀ v1 v2, v = v1 ++ v2 → v1 ≠ [] → k v2 = None) →
  star c k (u ++ v) = Some (u :: ps).
Proof.
  intros Hu Hk Hno. induction Hu as [|a u Ha Hu IH]; simpl.
  - destruct v as [|b v]; simpl; [by rewrite Hk|].
    rewrite (star_None c k v)
      by (intros v1 v2 ->; by apply (Hno (b :: v1) v2)).
    rewrite Hk. simpl. by destruct (c b).
  - by rewrite Ha, IH.
Qed.

Lemma head_blank w x :
  blank w → match w ++ x with [] => True | a :: _ => not_space a = false end.
Proof.
  intros [Hne Hw]. destruct Hw as [|a w Ha _]; [done|]. simpl.
  unfold not_space. by rewrite Ha.
Qed.

Lemma head_token t x :
  token t → match t ++ x with [] => True | a :: _ => is_space a = false end.
Proof.
  intros [Hne Ht]. destruct Ht as [|a t Ha _]; [done|]. simpl.
  unfold not_space in Ha. by apply negb_true_iff.
Qed.

(** The end of the pattern, [(\S.*\S)\s*$], on a name followed by blanks:
    the name is taken up to its last character that is no blank. *)
Lemma run_name a mid b w6 :
  not_space a = true → Forall (λ c, not_newline c = true) mid →
  not_space b = true → Forall (λ c, is_space c = true) w6 →
  run [One not_space; Any not_newline; One not_space; Any is_space; Eol]
    (a :: mid ++ b :: w6)
  = Some [[a]; mid; [b]; w6; []].
Proof.
  intros Ha Hmid Hb Hw6.
  assert (H1 : run [Any is_space; Eol] w6 = Some [w6; []]).
  { simpl. rewrite <-(app_nil_r w6) at 1. by apply star_greedy. }
  assert (H2 : run [One not_space; Any is_space; Eol] (b :: w6)
               = Some [[b]; w6; []]).
  { rewrite run_One, Hb, H1. done. }
  rewrite run_One, Ha.
  change (run (Any not_newline :: ?r) ?s) with (star not_newline (run r) s).
  rewrite (star_last not_newline _ mid (b :: w6) [[b]; w6; []]); [done..|].
  intros v1 v2 E Hne. destruct v1 as [|c v1]; [done|].
  injection E as -> ->. destruct v2 as [|x v2]; [done|].
  rewrite run_One.
  apply Forall_app in Hw6 as [_ Hw6]. apply Forall_cons in Hw6 as [Hx _].
  unfold not_space. by rewrite Hx.
Qed.

(** The matcher on a record line: every field takes its whole run. *)
Lemma record_line_groups d w1 t1 w2 t2 w3 t3 w4 f w5 a mid b w6 :
  is_date_token d = true →
  blank w1 → token t1 → blank w2 → token t2 → blank w3 → token t3 →
  blank w4 → token f → blank w5 →
  not_space a = true → Forall (λ c, not_newline c = true) mid →
  not_space b = true → Forall (λ c, is_space c = true) w6 →
  pat_match (d ++ w1 ++ t1 ++ w2 ++ t2 ++ w3 ++ t3 ++ w4 ++ f ++ w5
             ++ a :: mid ++ b :: w6)
  = Some (d, f, a :: mid ++ [b]).
Proof.
  intros Hd Hw1 Ht1 Hw2 Ht2 Hw3 Ht3 Hw4 Hf Hw5 Ha Hmid Hb Hw6.
  do 10 (destruct d as [|? d]; [done|]). destruct d; [|done].
  unfold is_date_token in Hd.
  do 9 (apply andb_true_iff in Hd as [Hd ?]).
  unfold pat_match, date_file_name_pat. cbn [app].
  rewrite !run_One.
  repeat match goal with
         | H : ?c ?x = true |- context [if ?c ?x then _ else _] => rewrite H
         end.
  pose proof (run_name a mid b w6 Ha Hmid Hb Hw6) as Hn.
  assert (Ha' : is_space a = false) by by apply negb_true_iff.
  pose proof (run_Many_greedy is_space _ w5 (a :: mid ++ b :: w6) _
                (proj1 Hw5) (proj2 Hw5) Ha' Hn) as E5.
  pose proof (run_Many_greedy not_space _ f _ _
                (proj1 Hf) (proj2 Hf) (head_blank _ _ Hw5) E5) as E6.
  pose proof (run_Many_greedy is_space _ w4 _ _
                (proj1 Hw4) (proj2 Hw4) (head_token _ _ Hf) E6) as E7.
  pose proof (run_Many_greedy not_space _ t3 _ _
                (proj1 Ht3) (proj2 Ht3) (head_blank _ _ Hw4) E7) as E8.
  pose proof (run_Many_greedy is_space _ w3 _ _
                (proj1 Hw3) (proj2 Hw3) (head_token _ _ Ht3) E8) as E9.
  pose proof (run_Many_greedy not_space _ t2 _ _
                (proj1 Ht2) (proj2 Ht2) (head_blank _ _ Hw3) E9) as E10.
  pose proof (run_Many_greedy is_space _ w2 _ _
                (proj1 Hw2) (proj2 Hw2) (head_token _ _ Ht2) E10) as E11.
  pose proof (run_Many_greedy not_space _ t1 _ _
                (proj1 Ht1) (proj2 Ht1) (head_blank _ _ Hw2) E11) as E12.
  pose proof (run_Many_greedy is_space _ w1 _ _
                (proj1 Hw1) (proj2 Hw1) (head_token _ _ Ht1) E12) as E13.
  rewrite E13. by cbn.
Qed.

(** A line made of a date token, three filler tokens, a file token and a
    name, separated by blanks, with blanks or nothing after the name, is
    matched, and its groups are the date, the file, and the name with the
    blanks inside it. *)
Theorem pat_match_record d w1 t1 w2 t2 w3 t3 w4 f w5 a mid b w6 :
  is_date_token d = true →
  blank w1 → token t1 → blank w2 → token t2 → blank w3 → token t3 →
  blank w4 → token f → blank w5 →
  not_space a = true → Forall (λ c, not_newline c = true) mid →
  not_space b = true → Forall (λ c, is_space c = true) w6 →
  pat_match (d ++ w1 ++ t1 ++ w2 ++ t2 ++ w3 ++ t3 ++ w4 ++ f ++ w5
             ++ a :: mid ++ b :: w6)
  = Some (d, f, a :: mid ++ [b]).
Proof. apply record_line_groups. Qed.

Lemma pat_match_record_witness :
  pat_match (txt "2023-01-02  x  x  x  fund.csv  Example Fund ")
  = Some (txt "2023-01-02", txt "fund.csv", txt "Example Fund").
Proof.
  assert (Hb : blank (txt "  ")) by (split; [discriminate|repeat constructor]).
  assert (Hx : token (txt "x")) by (split; [discriminate|repeat constructor]).
  assert (Hf : token (txt "fund.csv"))
    by (split; [discriminate|repeat constructor]).
  apply (pat_match_record (txt "2023-01-02") (txt "  ") (txt "x") (txt "  ")
           (txt "x") (txt "  ") (txt "x") (txt "  ") (txt "fund.csv")
           (txt "  ") "E"%char (txt "xample Fun") "d"%char (txt " ")
           eq_refl Hb Hx Hb Hx Hb Hx Hb Hf Hb eq_refl);
    [repeat constructor|reflexivity|repeat constructor].
Defined.

(** ** The date of a record *)

Lemma run_Alt alts r s : run (Alt alts :: r) s = alt alts (run r) s.
Proof. done. Qed.

(** The pattern of [%m] on two digits that spell a month. *)
Lemma re_m_match m1 m2 r s ps :
  is_digit m1 = true → is_digit m2 = true →
  (1 <=? int_of [m1; m2]) && (int_of [m1; m2] <=? 12) = true →
  run r s = Some ps →
  run (re_m :: r) (m1 :: m2 :: s) = Some ([m1; m2] :: ps).
Proof.
  intros Hm1 Hm2 HM Hr. unfold re_m. rewrite run_Alt.
  set (k := run r) in *. clearbody k.
  each_digit m1 Hm1; each_digit m2 Hm2; try discriminate HM;
    vm_compute; by rewrite Hr.
Qed.

(** The pattern of [%d] on two digits that spell a day of a month. *)
Lemma re_d_match d1 d2 r s ps :
  is_digit d1 = true → is_digit d2 = true →
  (1 <=? int_of [d1; d2]) && (int_of [d1; d2] <=? 31) = true →
  run r s = Some ps →
  run (re_d :: r) (d1 :: d2 :: s) = Some ([d1; d2] :: ps).
Proof.
  intros Hd1 Hd2 HD Hr. unfold re_d. rewrite run_Alt.
  set (k := run r) in *. clearbody k.
  each_digit d1 Hd1; each_digit d2 Hd2; try discriminate HD;
    vm_compute; by rewrite Hr.
Qed.

(** A date token that spells a calendar day is read as that day. *)
Lemma strptime_Y_m_d_digits y1 y2 y3 y4 m1 m2 d1 d2 :
  Forall (λ a, is_digit a = true) [y1; y2; y3; y4; m1; m2; d1; d2] →
  valid_date (int_of [y1; y2; y3; y4]) (int_of [m1; m2]) (int_of [d1; d2])
  = true →
  strptime_Y_m_d [y1; y2; y3; y4; "-"%char; m1; m2; "-"%char; d1; d2]
  = Ok (mkdate (int_of [y1; y2; y3; y4]) (int_of [m1; m2]) (int_of [d1; d2])).
Proof.
  intros Hd Hv.
  repeat (apply Forall_cons in Hd as [? Hd]).
  assert (Hr : run [re_m; One (chr "-"); re_d]
                 [m1; m2; "-"%char; d1; d2]
               = Some [[m1; m2]; ["-"%char]; [d1; d2]]).
  { unfold valid_date in Hv.
    repeat (apply andb_true_iff in Hv as [Hv ?]).
    assert (days_in_month (int_of [y1; y2; y3; y4]) (int_of [m1; m2]) ≤ 31).
    { unfold days_in_month. repeat case_match; lia. }
    apply re_m_match; [done..|apply andb_true_iff; split; lia|].
    rewrite run_One. change (chr "-" "-"%char) with true. cbv iota.
    rewrite (re_d_match d1 d2 [] [] []);
      [done..|apply andb_true_iff; split; lia|done]. }
  unfold strptime_Y_m_d, strptime, re_Y. cbn [app].
  rewrite !run_One.
  repeat match goal with H : is_digit ?a = true |- _ => rewrite H; clear H end.
  change (chr "-" "-"%char) with true. cbv iota.
  rewrite Hr. cbn [mbind option_bind length concat app Nat.eqb take nth
                   Nat.add Nat.mul].
  by rewrite Hv.
Qed.

(** A record line whose date token spells a calendar day is entered in
    the mapping: its name, with the blanks it has inside, maps to its file
    and its day, over what the mapping had for the name. *)
Theorem add_line_record m y1 y2 y3 y4 m1 m2 d1 d2
  w1 t1 w2 t2 w3 t3 w4 f w5 a mid b w6 :
  Forall (λ c, is_digit c = true) [y1; y2; y3; y4; m1; m2; d1; d2] →
  valid_date (int_of [y1; y2; y3; y4]) (int_of [m1; m2]) (int_of [d1; d2])
  = true →
  blank w1 → token t1 → blank w2 → token t2 → blank w3 → token t3 →
  blank w4 → token f → blank w5 →
  not_space a = true → Forall (λ c, not_newline c = true) mid →
  not_space b = true → Forall (λ c, is_space c = true) w6 →
  add_line m
    ([y1; y2; y3; y4; "-"%char; m1; m2; "-"%char; d1; d2]
     ++ w1 ++ t1 ++ w2 ++ t2 ++ w3 ++ t3 ++ w4 ++ f ++ w5
     ++ a :: mid ++ b :: w6)
  = Ok (<[a :: mid ++ [b] :=
            (f, mkdate (int_of [y1; y2; y3; y4]) (int_of [m1; m2])
                  (int_of [d1; d2]))]> m).
Proof.
  intros Hd Hv Hw1 Ht1 Hw2 Ht2 Hw3 Ht3 Hw4 Hf Hw5 Ha Hmid Hb Hw6.
  unfold add_line.
  rewrite (record_line_groups
             [y1; y2; y3; y4; "-"%char; m1; m2; "-"%char; d1; d2]);
    try done.
  - by rewrite strptime_Y_m_d_digits.
  - repeat (apply Forall_cons in Hd as [? Hd]). unfold is_date_token.
    repeat match goal with H : is_digit _ = true |- _ => rewrite H; clear H end.
    done.
Qed.

Lemma add_line_record_witness :
  add_line ∅ (txt "2023-01-02  x  x  x  fund.csv  Example Fund ")
  = Ok {[ txt "Example Fund" := (txt "fund.csv", mkdate 2023 1 2) ]}.
Proof.
  assert (Hb : blank (txt "  ")) by (split; [discriminate|repeat constructor]).
  assert (Hx : token (txt "x")) by (split; [discriminate|repeat constructor]).
  assert (Hf : token (txt "fund.csv"))
    by (split; [discriminate|repeat constructor]).
  apply (add_line_record ∅ "2" "0" "2" "3" "0" "1" "0" "2"
           (txt "  ") (txt "x") (txt "  ") (txt "x") (txt "  ") (txt "x")
           (txt "  ") (txt "fund.csv") (txt "  ")
           "E"%char (txt "xample Fun") "d"%char (txt " "));
    try done; repeat constructor.
Defined.

(** ** A quote whose price does not convert *)

(** When the product of the price and the denominator cannot be stored
    (the price is NaN or an infinity, or the product overflows the
    context), the exception leaves the loop body after [set_time]: the
    price the ledger had for the commodity already carries the date of the
    quote, with its old value, and is not added again. *)
Theorem conversion_failure_after_set_time
  unidecode mst cur cmdt st pl old price day e
  (Hpl : lookup_latest (book st) cmdt cur = Some pl)
  (Hold : prices (book st) !! pl = Some old)
  (Hq : get_fund_price mst (unidecode (fullname cmdt))
        = Ok (Some (price, day)))
  (Hlt : date_lt (time old) day)
  (Hn : to_num price (denom (value old)) = Raise e) :
  ∃ st',
    reconcile unidecode mst cur cmdt st = (Raise e, st')
    ∧ prices (book st') !! pl = Some (at_time old day)
    ∧ pricedb (book st') = pricedb (book st)
    ∧ log st' = log st ++ [Print (Updating (fullname cmdt) price day)]
    ∧ ∀ rest, for_each (reconcile unidecode mst cur) (cmdt :: rest) st
              = (Raise e, st').
Proof.
  eexists. split.
  { apply (reconcile_conversion_raises unidecode mst cur cmdt st pl old
             price day e); try done. by apply date_geb_false. }
  simpl. rewrite lookup_insert_eq. repeat split.
  intros rest. apply for_each_cons_Raise.
  apply (reconcile_conversion_raises unidecode mst cur cmdt st pl old
           price day e); try done. by apply date_geb_false.
Qed.

Lemma conversion_failure_after_set_time_witness :
  get_fund_price Cases.quotes_nan (txt "Example Fund")
  = Ok (Some (NaN false, mkdate 2023 1 2))
  ∧ ∃ st',
      reconcile id Cases.quotes_nan Scenario.cur Scenario.fund Scenario.start
      = (Raise (ValueError (txt "Cannot convert NaN to integer")), st')
      ∧ prices (book st') !! 0%nat
        = Some (at_time Scenario.baseline (mkdate 2023 1 2))
      ∧ pricedb (book st') = [0%nat].
Proof.
  assert (H1 : lookup_latest (book Scenario.start) Scenario.fund Scenario.cur
               = Some 0%nat) by (vm_compute; reflexivity).
  assert (H2 : prices (book Scenario.start) !! 0%nat = Some Scenario.baseline)
    by (vm_compute; reflexivity).
  assert (H3 : get_fund_price Cases.quotes_nan (id (fullname Scenario.fund))
               = Ok (Some (NaN false, mkdate 2023 1 2)))
    by (vm_compute; reflexivity).
  assert (H4 : date_lt (time Scenario.baseline) (mkdate 2023 1 2))
    by (unfold date_lt; simpl; lia).
  assert (H5 : to_num (NaN false) (denom (value Scenario.baseline))
               = Raise (ValueError (txt "Cannot convert NaN to integer")))
    by (vm_compute; reflexivity).
  split; [exact H3|].
  destruct (conversion_failure_after_set_time id Cases.quotes_nan Scenario.cur
              Scenario.fund Scenario.start 0%nat Scenario.baseline
              (NaN false) (mkdate 2023 1 2) _ H1 H2 H3 H4 H5)
    as (st' & Hr & Hp & Hdb & _).
  exists st'. split; [exact Hr|]. split; [exact Hp|exact Hdb].
Defined.

(** ** What one turn of the loop can do *)

(** A turn of the loop prints one skip line and leaves the book as it was;
    or raises what [get_fund_price] raised, the state as it was; or, with
    the price [pl] the ledger has for the commodity, it announces an
    update and then either changes and adds [pl], or raises with only the
    date of [pl] changed. *)
Lemma reconcile_cases unidecode mst cur cmdt st :
  (∃ r, reconcile unidecode mst cur cmdt st
        = (Ok (), {| book := book st; log := log st ++ [Print r] |})
        ∧ report_name r = Some (fullname cmdt)
        ∧ ∀ n p d, r ≠ Updating n p d)
  ∨ (∃ e, reconcile unidecode mst cur cmdt st = (Raise e, st))
  ∨ ∃ pl old price day,
      lookup_latest (book st) cmdt cur = Some pl
      ∧ prices (book st) !! pl = Some old
      ∧ pl ∈ pricedb (book st)
      ∧ ((∃ n,
            reconcile unidecode mst cur cmdt st
            = (Ok (),
               {| book :=
                    {| prices :=
                         <[pl := {| commodity := commodity old;
                                    currency := currency old;
                                    time := day;
                                    value :=
                                      {| num := n;
                                         denom := denom (value old) |} |}]>
                           (<[fresh (dom (prices (book st))) := old]>
                              (prices (book st)));
                       pricedb := pricedb (book st) ++ [pl];
                       commodity_table := commodity_table (book st) |};
                  log := log st
                         ++ [Print (Updating (fullname cmdt) price day);
                             AddPrice pl] |}))
         ∨ (∃ e,
              reconcile unidecode mst cur cmdt st
              = (Raise e,
                 {| book :=
                      {| prices :=
                           <[pl := at_time old day]>
                             (<[fresh (dom (prices (book st))) := old]>
                                (prices (book st)));
                         pricedb := pricedb (book st);
                         commodity_table := commodity_table (book st) |};
                    log := log st
                           ++ [Print (Updating (fullname cmdt) price day)]
                 |}))).
Proof.
  destruct (lookup_latest (book st) cmdt cur) as [pl|] eqn:Hpl.
  2:{ left. eexists. split; [by apply reconcile_no_baseline|]. done. }
  destruct (lookup_latest_Some _ _ _ _ Hpl) as (c & old & _ & Hold & _ & _ & Hin).
  destruct (get_fund_price mst (unidecode (fullname cmdt)))
    as [[[price day]|]|e] eqn:Hq.
  - destruct (date_geb (time old) day) eqn:Hge.
    + left. eexists. split;
        [by apply (reconcile_not_older unidecode mst cur cmdt st pl old
                     price day)|done].
    + right. right. exists pl, old, price, day. repeat split; try done.
      destruct (to_num price (denom (value old))) as [n|e] eqn:Hn.
      * left. exists n. by apply reconcile_update.
      * right. exists e. by apply reconcile_conversion_raises.
  - left. eexists. split;
      [by apply (reconcile_not_available unidecode mst cur cmdt st pl)|done].
  - right. left. exists e. by apply reconcile_raises with pl.
Qed.

Lemma keeps_refl b : keeps b b.
Proof.
  split; [done|]. split.
  - exists []. rewrite app_nil_r. split; [done|]. by intros p Hp%elem_of_nil.
  - intros p r Hp. by exists r.
Qed.

Lemma keeps_trans b1 b2 b3 : keeps b1 b2 → keeps b2 b3 → keeps b1 b3.
Proof.
  intros (Ht1 & (m1 & Hd1 & Hm1) & Hp1) (Ht2 & (m2 & Hd2 & Hm2) & Hp2).
  split; [congruence|]. split.
  - exists (m1 ++ m2). rewrite Hd2, Hd1, app_assoc. split; [done|].
    intros p [Hp|Hp]%elem_of_app; [by apply Hm1|].
    specialize (Hm2 p Hp). rewrite Hd1 in Hm2.
    apply elem_of_app in Hm2 as [?|?]; [done|by apply Hm1].
  - intros p r Hp. destruct (Hp1 p r Hp) as (r' & Hr' & ? & ? & ?).
    destruct (Hp2 p r' Hr') as (r'' & Hr'' & ? & ? & ?).
    exists r''. repeat split; congruence.
Qed.

Lemma keeps_changed b pl old new more :
  prices b !! pl = Some old →
  commodity new = commodity old → currency new = currency old →
  denom (value new) = denom (value old) →
  (∀ p, p ∈ more → p ∈ pricedb b) →
  keeps b {| prices := <[pl := new]>
                         (<[fresh (dom (prices b)) := old]> (prices b));
             pricedb := pricedb b ++ more;
             commodity_table := commodity_table b |}.
Proof.
  intros Hold Hc Hcu Hd Hm. split; [done|]. split; [by exists more|].
  intros p r Hp. simpl.
  destruct (decide (p = pl)) as [->|Hne].
  - rewrite lookup_insert_eq. exists new. rewrite Hold in Hp.
    injection Hp as <-. done.
  - rewrite lookup_insert_ne by done.
    assert (fresh (dom (prices b)) ≠ p).
    { intros <-. apply (is_fresh (dom (prices b))).
      by apply elem_of_dom_2 with r. }
    rewrite lookup_insert_ne by done. by exists r.
Qed.

Lemma reconcile_keeps unidecode mst cur cmdt st :
  keeps (book st) (book (reconcile unidecode mst cur cmdt st).2).
Proof.
  destruct (reconcile_cases unidecode mst cur cmdt st)
    as [(r & -> & _)|[(e & ->)|(pl & old & price & day & _ & Hold & Hin
                                 & [(n & ->)|(e & ->)])]]; simpl.
  - apply keeps_refl.
  - apply keeps_refl.
  - apply keeps_changed; try done.
    intros p Hp%list_elem_of_singleton. by subst.
  - rewrite <-(app_nil_r (pricedb (book st))).
    apply keeps_changed; try done. by intros p Hp%elem_of_nil.
Qed.

Lemma for_each_keeps unidecode mst cur xs st :
  keeps (book st) (book (for_each (reconcile unidecode mst cur) xs st).2).
Proof.
  revert st. induction xs as [|x xs IH]; intros st; simpl.
  - apply keeps_refl.
  - unfold mbind, M_bind.
    pose proof (reconcile_keeps unidecode mst cur x st) as Hk.
    destruct (reconcile unidecode mst cur x st) as [[[]|e] st1]; simpl in *.
    + by apply keeps_trans with (book st1).
    + done.
Qed.

(** ** What the loop leaves alone *)

Lemma reconcile_frame unidecode mst cur cmdt st p r :
  prices (book st) !! p = Some r →
  lookup_latest (book st) cmdt cur ≠ Some p →
  prices (book (reconcile unidecode mst cur cmdt st).2) !! p = Some r.
Proof.
  intros Hp Hne.
  destruct (reconcile_cases unidecode mst cur cmdt st)
    as [(x & -> & _)|[(e & ->)|(pl & old & price & day & Hpl & Hold & Hin
                                 & [(n & ->)|(e & ->)])]]; simpl; try done.
  all: assert (pl ≠ p) by congruence.
  all: assert (fresh (dom (prices (book st))) ≠ p)
         by (intros <-; apply (is_fresh (dom (prices (book st))));
             by apply elem_of_dom_2 with r).
  all: by rewrite !lookup_insert_ne.
Qed.

Lemma for_each_frame unidecode mst cur xs st p r :
  prices (book st) !! p = Some r →
  commodity r ∉ xs ∨ cur ≠ Some (currency r) →
  prices (book (for_each (reconcile unidecode mst cur) xs st).2) !! p = Some r.
Proof.
  revert st. induction xs as [|x xs IH]; intros st Hp Hout; simpl; [done|].
  unfold mbind, M_bind.
  assert (Hne : lookup_latest (book st) x cur ≠ Some p).
  { intros H. apply lookup_latest_Some in H as (c & r' & -> & Hr' & <- & <- & _).
    rewrite Hp in Hr'. injection Hr' as <-.
    destruct Hout as [Hout|Hout]; [|done]. apply Hout. by left. }
  pose proof (reconcile_frame unidecode mst cur x st p r Hp Hne) as H1.
  destruct (reconcile unidecode mst cur x st) as [[[]|e] st1]; simpl in *.
  - apply IH; [done|]. destruct Hout as [Hout|Hout]; [left|by right].
    intros Hin. apply Hout. by right.
  - done.
Qed.

Lemma try_block_book unidecode w st :
  book (try_block unidecode w st).2
  = match MstFun_enter (urlopen_lst w) (urlopen_zip w) with
    | Ok mst =>
        book (for_each
                (reconcile unidecode mst
                   (table_lookup (book st) (txt "CURRENCY") (txt "PLN")))
                (get_commodities (book st) (txt "FUND")) st).2
    | Raise _ => book st
    end.
Proof.
  unfold try_block, mbind, M_bind, with_book, lift. simpl.
  destruct (MstFun_enter _ _) as [mst|e]; simpl; [|done].
  destruct (for_each _ _ st) as [[[]|e] st1]; simpl; [|done].
  unfold session_save, mbind, M_bind, emit, lift. simpl.
  by destruct (save_error w).
Qed.

Lemma main_book unidecode argv w b :
  (2 ≤ length argv)%nat → session w = Ok b →
  (main unidecode argv w).2
  = Some (book (try_block unidecode w {| book := b; log := [] |}).2).
Proof.
  intros Hargv Hs. unfold main.
  destruct (Nat.ltb_spec (length argv) 2) as [?|_]; [lia|]. rewrite Hs.
  destruct (try_block _ _ _) as [r st]. by simpl.
Qed.

(** Whatever a run does, and however it ends, the book it leaves has the
    commodity table of the book it opened; its price database lists the
    prices it listed, followed only by prices it already listed; and every
    price object still has its commodity, its currency and the denominator
    of its value. *)
Theorem run_keeps_ledger_shape unidecode argv w b :
  (2 ≤ length argv)%nat → session w = Ok b →
  ∃ b', (main unidecode argv w).2 = Some b' ∧ keeps b b'.
Proof.
  intros Hargv Hs. eexists. split; [by apply main_book|].
  rewrite try_block_book. destruct (MstFun_enter _ _) as [mst|e].
  - apply (for_each_keeps unidecode mst _ _ {| book := b; log := [] |}).
  - apply keeps_refl.
Qed.

Lemma run_keeps_ledger_shape_witness :
  ∃ b', (main id Scenario.argv Scenario.net).2 = Some b'
        ∧ keeps Scenario.ledger b'.
Proof.
  apply (run_keeps_ledger_shape id Scenario.argv Scenario.net Scenario.ledger).
  - simpl. lia.
  - reflexivity.
Defined.

(** A run changes no price of a commodity outside the namespace FUND, and
    no price in a currency other than the commodity the table has for
    CURRENCY and PLN: such a price object has the same fields in the book
    the run leaves, however the run ends. *)
Theorem other_prices_untouched unidecode argv w b p r :
  (2 ≤ length argv)%nat → session w = Ok b →
  prices b !! p = Some r →
  namespace (commodity r) ≠ txt "FUND"
  ∨ table_lookup b (txt "CURRENCY") (txt "PLN") ≠ Some (currency r) →
  ∃ b', (main unidecode argv w).2 = Some b' ∧ prices b' !! p = Some r.
Proof.
  intros Hargv Hs Hp Hout. eexists. split; [by apply main_book|].
  rewrite try_block_book. destruct (MstFun_enter _ _) as [mst|e]; [|done].
  apply (for_each_frame unidecode mst _ _ {| book := b; log := [] |});
    [done|]. simpl.
  destruct Hout as [Hout|Hout]; [left|by right].
  unfold get_commodities. intros Hin%list_elem_of_filter. by destruct Hin.
Qed.

Lemma other_prices_untouched_witness :
  ∃ b', (main id Scenario.argv Cases.net_mixed).2 = Some b'
        ∧ prices b' !! 1%nat = Some Cases.price_in_EUR.
Proof.
  apply (other_prices_untouched id Scenario.argv Cases.net_mixed
           Cases.ledger_mixed).
  - simpl. lia.
  - reflexivity.
  - vm_compute. reflexivity.
  - right. vm_compute. discriminate.
Defined.

(** ** The lines of a run *)

Lemma reconcile_prints unidecode mst cur cmdt st st' :
  reconcile unidecode mst cur cmdt st = (Ok (), st') →
  ∃ evs, log st' = log st ++ evs
         ∧ printed_names evs = [fullname cmdt]
         ∧ length (added evs) = length (announced evs).
Proof.
  destruct (reconcile_cases unidecode mst cur cmdt st)
    as [(x & -> & Hx & Hu)|[(e & ->)|(pl & old & price & day & _ & _ & _
                                      & [(n & ->)|(e & ->)])]];
    intros [= <-]; simpl.
  - exists [Print x]. split; [done|]. unfold printed_names. simpl.
    rewrite Hx. split; [done|].
    destruct x; try done. exfalso. by eapply Hu.
  - by eexists.
Qed.

Lemma for_each_prints unidecode mst cur xs st st' :
  for_each (reconcile unidecode mst cur) xs st = (Ok (), st') →
  ∃ evs, log st' = log st ++ evs
         ∧ printed_names evs = map fullname xs
         ∧ length (added evs) = length (announced evs).
Proof.
  revert st. induction xs as [|x xs IH]; intros st; simpl.
  - intros [= <-]. exists []. by rewrite app_nil_r.
  - unfold mbind, M_bind.
    destruct (reconcile unidecode mst cur x st) as [[[]|e] st1] eqn:E1;
      [|done].
    intros E2. apply reconcile_prints in E1 as (evs1 & Hl1 & Hp1 & Ha1).
    apply IH in E2 as (evs2 & Hl2 & Hp2 & Ha2).
    exists (evs1 ++ evs2). rewrite Hl2, Hl1, app_assoc. split; [done|].
    unfold printed_names, added, announced in *.
    rewrite !omap_app, !length_app, Hp1, Hp2, Ha1, Ha2. done.
Qed.

(** A run that ends with status 0 has printed one line for every
    commodity of the namespace FUND, in the order of the table, has made
    one [add_price] for every update it announced, and has then saved,
    ended and destroyed the session. *)
Theorem one_line_per_fund unidecode argv w b :
  session w = Ok b →
  (main unidecode argv w).1.1 = Exit 0 →
  ∃ body,
    (main unidecode argv w).1.2
    = body ++ [SessionSave; SessionEnd; SessionDestroy]
    ∧ printed_names body = map fullname (get_commodities b (txt "FUND"))
    ∧ length (added body) = length (announced body).
Proof.
  intros Hs. unfold main. destruct (length argv <? 2)%nat; [done|].
  rewrite Hs. unfold try_block, mbind, M_bind, with_book, lift. simpl.
  destruct (MstFun_enter _ _) as [mst|e]; simpl; [|done].
  destruct (for_each _ _ _) as [[[]|e] st1] eqn:E; simpl; [|done].
  apply for_each_prints in E as (evs & Hl & Hp & Ha). simpl in Hl.
  unfold session_save, mbind, M_bind, emit, lift. simpl.
  destruct (save_error w); simpl; [done|]. intros _.
  exists evs. rewrite Hl, <-!app_assoc. done.
Qed.

Lemma one_line_per_fund_witness :
  ∃ body,
    (main id Scenario.argv Scenario.net).1.2
    = body ++ [SessionSave; SessionEnd; SessionDestroy]
    ∧ printed_names body
      = map fullname (get_commodities Scenario.ledger (txt "FUND"))
    ∧ length (added body) = length (announced body).
Proof.
  apply (one_line_per_fund id Scenario.argv Scenario.net Scenario.ledger).
  - reflexivity.
  - vm_compute. reflexivity.
Defined.

(** ** A download that fails *)

(** When the manifest or the archive cannot be had, the run ends with the
    exception of [MstFun.__enter__], which for the manifest is the
    exception of its download inside a new one; nothing is printed or
    saved, the book is as it was opened, and the session is ended and
    destroyed. *)
Theorem failed_download_ends_run unidecode argv w b e :
  (2 ≤ length argv)%nat → session w = Ok b →
  MstFun_enter (urlopen_lst w) (urlopen_zip w) = Raise e →
  main unidecode argv w = (Uncaught e, [SessionEnd; SessionDestroy], Some b)
  ∧ ∀ e', download_polish_funds_list (urlopen_lst w) = Raise e' →
          e = Wrapped (txt "Could not download list of available funds.") e'.
Proof.
  intros Hargv Hs He. split.
  - unfold main. destruct (Nat.ltb_spec (length argv) 2) as [?|_]; [lia|].
    rewrite Hs. unfold try_block, mbind, M_bind, with_book, lift. simpl.
    by rewrite He.
  - intros e' He'. unfold MstFun_enter in He. rewrite He' in He. congruence.
Qed.

Lemma failed_download_ends_run_witness :
  main id Scenario.argv Cases.net_bad_manifest
  = (Uncaught (Wrapped (txt "Could not download list of available funds.")
                 (HttpStatus (txt "mstfun.lst") 404)),
     [SessionEnd; SessionDestroy], Some Scenario.ledger)
  ∧ ∀ e', download_polish_funds_list (urlopen_lst Cases.net_bad_manifest)
          = Raise e' →
          Wrapped (txt "Could not download list of available funds.")
            (HttpStatus (txt "mstfun.lst") 404)
          = Wrapped (txt "Could not download list of available funds.") e'.
Proof.
  apply (failed_download_ends_run id Scenario.argv Cases.net_bad_manifest
           Scenario.ledger).
  - simpl. lia.
  - reflexivity.
  - reflexivity.
Defined.

(** ** The quote of a fund *)

Lemma last_map {A B} (f : A → B) (l : list A) :
  last (map f l) = f <$> last l.
Proof.
  induction l as [|a [|b l] IH]; [done..|].
  change (last (map f (b :: l)) = f <$> last (b :: l)) in IH. by simpl in *.
Qed.

(** The quote of a fund depends on the header of its price file and on the
    last record only: not on the records before it, on the name of the
    file, or on the date the manifest has for the fund.  This holds for
    the exceptions too. *)
Theorem quote_depends_on_last_record mst mst' name file file' d d' t t' :
  fund_to_file_date mst !! name = Some (file, d) →
  fund_to_file_date mst' !! name = Some (file', d') →
  mstfun mst !! file = Some (Csv t) →
  mstfun mst' !! file' = Some (Csv t') →
  columns t = columns t' →
  last (rows t) = last (rows t') →
  get_fund_price mst name = get_fund_price mst' name.
Proof.
  intros Hf Hf' Hz Hz' Hc Hl. unfold get_fund_price, zip_open.
  rewrite Hf, Hf', Hz, Hz'. cbv [mbind result_bind read_csv]. rewrite Hc.
  destruct (forallb _ _); [|done]. cbv [set_columns]. simpl length.
  destruct (_ =? _)%nat; [|done]. cbv [iloc_last]. simpl rows.
  by rewrite !last_map, Hl.
Qed.

Lemma quote_depends_on_last_record_witness :
  get_fund_price Scenario.quotes (txt "Example Fund")
  = get_fund_price Cases.quotes_longer (txt "Example Fund").
Proof.
  apply (quote_depends_on_last_record Scenario.quotes Cases.quotes_longer
           (txt "Example Fund") (txt "fund.csv") (txt "other.csv")
           (mkdate 2023 1 2) (mkdate 1999 9 9)
           Scenario.table Cases.table_longer); by vm_compute.
Defined.

(** For a fund of the manifest whose price file has the date column before
    the closing price, the quote is the closing price of the last record,
    as the decimal its text spells, on the day its date text spells. *)
Theorem quote_is_last_record mst name file d t rs r
  y1 y2 y3 y4 m1 m2 d1 d2 ip fp :
  fund_to_file_date mst !! name = Some (file, d) →
  mstfun mst !! file = Some (Csv t) →
  filter (λ c, c ∈ [DTYYYYMMDD; CLOSE]) (columns t) = [DTYYYYMMDD; CLOSE] →
  rows t = rs ++ [r] →
  select [DTYYYYMMDD; CLOSE] (columns t) r
  = [Str [y1; y2; y3; y4; m1; m2; d1; d2]; Str (ip ++ "."%char :: fp)] →
  Forall (λ a, is_digit a = true) [y1; y2; y3; y4; m1; m2; d1; d2] →
  valid_date (int_of [y1; y2; y3; y4]) (int_of [m1; m2]) (int_of [d1; d2])
  = true →
  ip ≠ [] →
  Forall (λ a, is_digit a = true) ip → Forall (λ a, is_digit a = true) fp →
  get_fund_price mst name
  = Ok (Some (Fin false (Z.to_N (int_of (ip ++ fp)))
                (- Z.of_nat (length fp)),
              mkdate (int_of [y1; y2; y3; y4]) (int_of [m1; m2])
                (int_of [d1; d2]))).
Proof.
  intros Hf Hz Hc Hr Hs Hd Hv Hne Hip Hfp.
  rewrite (get_fund_price_last_row mst name file d t rs r _ _ Hf Hz Hc Hr Hs).
  rewrite Decimal_of_str_numeral by done. cbv [mbind result_bind].
  by rewrite strptime_Ymd_digits.
Qed.

Lemma quote_is_last_record_witness :
  get_fund_price Scenario.quotes (txt "Example Fund")
  = Ok (Some (Fin false 1050 (-2), mkdate 2023 1 2)).
Proof.
  apply (quote_is_last_record Scenario.quotes (txt "Example Fund")
           (txt "fund.csv") (mkdate 2023 1 2) Scenario.table
           [[Str (txt "EX"); Str (txt "20230101"); Str (txt "9.90");
             Str (txt "10.00")]]
           [Str (txt "EX"); Str (txt "20230102"); Str (txt "10.10");
            Str (txt "10.50")]
           "2" "0" "2" "3" "0" "1" "0" "2" (txt "10") (txt "50"));
    try (by vm_compute); repeat constructor.
Defined.

(** A price file in the archive that lacks one of the two columns makes
    [get_fund_price] raise the reader's [ValueError], and one that has
    both columns once but no record makes it raise [IndexError]: neither
    gives [None]. *)
Theorem unusable_price_file_raises mst name file d t :
  fund_to_file_date mst !! name = Some (file, d) →
  mstfun mst !! file = Some (Csv t) →
  (DTYYYYMMDD ∉ columns t ∨ CLOSE ∉ columns t →
   get_fund_price mst name
   = Raise (ValueError (txt "Usecols do not match columns")))
  ∧ (length (filter (λ c, c ∈ [DTYYYYMMDD; CLOSE]) (columns t)) = 2%nat →
     DTYYYYMMDD ∈ columns t → CLOSE ∈ columns t → rows t = [] →
     get_fund_price mst name = Raise IndexError).
Proof.
  intros Hf Hz. unfold get_fund_price, zip_open. rewrite Hf, Hz.
  cbv [mbind result_bind read_csv]. split.
  - intros Hno.
    assert (forallb (λ u, bool_decide (u ∈ columns t)) [DTYYYYMMDD; CLOSE]
            = false) as ->; [|done].
    simpl. destruct Hno as [Hno|Hno]; rewrite (bool_decide_eq_false_2 _ Hno);
      [done|by rewrite andb_false_r].
  - intros Hlen Hd Hc Hrows.
    assert (forallb (λ u, bool_decide (u ∈ columns t)) [DTYYYYMMDD; CLOSE]
            = true) as ->.
    { simpl. by rewrite !bool_decide_eq_true_2. }
    assert (Hnd : NoDup (filter (λ c, c ∈ [DTYYYYMMDD; CLOSE]) (columns t))).
    { assert (Hd' : DTYYYYMMDD
                    ∈ filter (λ c, c ∈ [DTYYYYMMDD; CLOSE]) (columns t))
        by (apply list_elem_of_filter; split; [by left|done]).
      assert (Hc' : CLOSE ∈ filter (λ c, c ∈ [DTYYYYMMDD; CLOSE]) (columns t))
        by (apply list_elem_of_filter; split; [by right; left|done]).
      assert (Hne : DTYYYYMMDD ≠ CLOSE) by (intros E; by vm_compute in E).
      destruct (filter _ (columns t)) as [|a [|b [|? ?]]]; try done.
      apply NoDup_cons. split; [|apply NoDup_singleton].
      intros Hab%list_elem_of_singleton.
      apply elem_of_cons in Hd' as [Hd'|Hd'%list_elem_of_singleton];
        apply elem_of_cons in Hc' as [Hc'|Hc'%list_elem_of_singleton];
        congruence. }
    rewrite labels_from_filter by (done || by intros c Hc0%elem_of_nil).
    cbv [set_columns]. simpl length. simpl columns. rewrite Hlen. simpl.
    cbv [iloc_last]. simpl rows. by rewrite Hrows.
Qed.

Lemma unusable_price_file_raises_witness :
  get_fund_price Cases.quotes_no_close (txt "Example Fund")
  = Raise (ValueError (txt "Usecols do not match columns"))
  ∧ get_fund_price Cases.quotes_empty (txt "Example Fund") = Raise IndexError.
Proof.
  split.
  - apply (unusable_price_file_raises Cases.quotes_no_close
             (txt "Example Fund") (txt "fund.csv") (mkdate 2023 1 2)
             Cases.table_no_close); [by vm_compute..|].
    right. vm_compute. intros H. by apply list_elem_of_In in H as [?|[?|[?|[]]]].
  - apply (unusable_price_file_raises Cases.quotes_empty
             (txt "Example Fund") (txt "fund.csv") (mkdate 2023 1 2)
             Cases.table_empty); try (by vm_compute).
    + apply list_elem_of_In. vm_compute. tauto.
    + apply list_elem_of_In. vm_compute. tauto.
Defined.

(** ** After an update *)

Lemma date_geb_refl a : date_geb a a = true.
Proof. apply date_geb_true. by left. Qed.

Lemma date_geb_trans a b c :
  date_geb a b = true → date_geb b c = true → date_geb a c = true.
Proof.
  rewrite !date_geb_true. unfold date_lt.
  destruct a, b, c. simpl. intros [[= -> -> ->]|H1] [[= -> -> ->]|H2]; auto.
  right. lia.
Qed.

Lemma date_ltb_geb a b : date_ltb a b = true → date_geb b a = true.
Proof.
  intros H. apply date_geb_true. right. apply date_geb_false.
  unfold date_geb. by rewrite H.
Qed.

Lemma newest_max b ps p :
  newest b ps = Some p →
  ∀ q, q ∈ ps → date_geb (time_of b p) (time_of b q) = true.
Proof.
  revert p. induction ps as [|x ps IH]; intros p; simpl; [done|].
  destruct (newest b ps) as [q'|] eqn:E.
  - destruct (date_ltb (time_of b x) (time_of b q')) eqn:El;
      intros [= <-] q [->|Hq]%elem_of_cons.
    + by apply date_ltb_geb.
    + by apply IH.
    + apply date_geb_refl.
    + apply date_geb_trans with (time_of b q'); [|by apply IH].
      unfold date_geb. by rewrite El.
  - destruct ps as [|y ps]; [|simpl in E; by repeat case_match].
    intros [= <-] q [->|Hq]%elem_of_cons; [apply date_geb_refl|].
    by apply elem_of_nil in Hq.
Qed.

Lemma newest_nonempty b ps : ps ≠ [] → ∃ p, newest b ps = Some p.
Proof. destruct ps; [done|]. intros _. simpl. repeat case_match; by eexists. Qed.

(** Once a commodity has been updated with a quote, the same quote does
    not update it again: a second turn of the loop for the commodity
    finds a price that is not older than the quote and prints that the
    commodity is skipped, the book as the first turn left it. *)
Theorem update_then_skip unidecode mst cur cmdt st pl old price day n :
  lookup_latest (book st) cmdt cur = Some pl →
  prices (book st) !! pl = Some old →
  get_fund_price mst (unidecode (fullname cmdt)) = Ok (Some (price, day)) →
  date_geb (time old) day = false →
  to_num price (denom (value old)) = Ok n →
  let st1 := (reconcile unidecode mst cur cmdt st).2 in
  ∃ t, date_geb t day = true
       ∧ reconcile unidecode mst cur cmdt st1
         = (Ok (),
            {| book := book st1;
               log := log st1
                      ++ [Print (SkippingNotOlder (fullname cmdt) t day)] |}).
Proof.
  intros Hpl Hold Hq Hge Hn.
  rewrite (reconcile_update unidecode mst cur cmdt st pl old price day n)
    by done.
  cbv zeta. cbn [snd]. set (st1 := {| book := _; log := _ |}).
  destruct (lookup_latest_Some _ _ _ _ Hpl) as (c & r & -> & Hr & Hc & Hcu & _).
  rewrite Hold in Hr. injection Hr as <-.
  assert (Hin : pl ∈ filter (λ p, is_price_of (book st1) cmdt c p)
                       (pricedb (book st1))).
  { apply list_elem_of_filter. split.
    - unfold is_price_of. simpl. rewrite lookup_insert_eq. simpl.
      by rewrite bool_decide_eq_true_2.
    - simpl. apply elem_of_app. right. by left. }
  destruct (newest_nonempty (book st1)
              (filter (λ p, is_price_of (book st1) cmdt c p)
                 (pricedb (book st1)))) as [p' Hp'].
  { intros E. rewrite E in Hin. by apply elem_of_nil in Hin. }
  assert (Hl : lookup_latest (book st1) cmdt (Some c) = Some p') by done.
  destruct (lookup_latest_Some _ _ _ _ Hl) as (? & r' & _ & Hr' & _).
  pose proof (newest_max _ _ _ Hp' pl Hin) as Hmax.
  unfold time_of in Hmax. rewrite Hr' in Hmax.
  replace (prices (book st1) !! pl)
    with (Some {| commodity := commodity old; currency := currency old;
                  time := day;
                  value := {| num := n; denom := denom (value old) |} |})
    in Hmax by (simpl; by rewrite lookup_insert_eq).
  simpl in Hmax. exists (time r'). split; [done|].
  by apply (reconcile_not_older unidecode mst (Some c) cmdt st1 p' r' price day).
Qed.

Lemma update_then_skip_witness :
  let st1 := (reconcile id Scenario.quotes Scenario.cur Scenario.fund
                Scenario.start).2 in
  ∃ t, date_geb t (mkdate 2023 1 2) = true
       ∧ reconcile id Scenario.quotes Scenario.cur Scenario.fund st1
         = (Ok (),
            {| book := book st1;
               log := log st1
                      ++ [Print (SkippingNotOlder (fullname Scenario.fund) t
                                   (mkdate 2023 1 2))] |}).
Proof.
  apply (update_then_skip id Scenario.quotes Scenario.cur Scenario.fund
           Scenario.start 0%nat Scenario.baseline (Fin false 1050 (-2))
           (mkdate 2023 1 2) 1050); by vm_compute.
Defined.

(** ** A record with a day its month does not have *)

Lemma strptime_Y_m_d_range y1 y2 y3 y4 m1 m2 d1 d2 :
  Forall (λ a, is_digit a = true) [y1; y2; y3; y4; m1; m2; d1; d2] →
  (1 <=? int_of [m1; m2]) && (int_of [m1; m2] <=? 12) = true →
  (1 <=? int_of [d1; d2]) && (int_of [d1; d2] <=? 31) = true →
  strptime_Y_m_d [y1; y2; y3; y4; "-"%char; m1; m2; "-"%char; d1; d2]
  = if valid_date (int_of [y1; y2; y3; y4]) (int_of [m1; m2])
         (int_of [d1; d2])
    then Ok (mkdate (int_of [y1; y2; y3; y4]) (int_of [m1; m2])
               (int_of [d1; d2]))
    else if int_of [y1; y2; y3; y4] <? 1
         then Raise (ValueError (txt "year is out of range"))
         else Raise (ValueError (txt "day is out of range for month")).
Proof.
  intros Hd Hm Hday.
  repeat (apply Forall_cons in Hd as [? Hd]).
  assert (Hr : run [re_m; One (chr "-"); re_d]
                 [m1; m2; "-"%char; d1; d2]
               = Some [[m1; m2]; ["-"%char]; [d1; d2]]).
  { apply re_m_match; [done..|].
    rewrite run_One. change (chr "-" "-"%char) with true. cbv iota.
    by rewrite (re_d_match d1 d2 [] [] []). }
  unfold strptime_Y_m_d, strptime, re_Y. cbn [app].
  rewrite !run_One.
  repeat match goal with H : is_digit ?a = true |- _ => rewrite H; clear H end.
  change (chr "-" "-"%char) with true. cbv iota.
  rewrite Hr. cbn [mbind option_bind length concat app Nat.eqb take nth
                   Nat.add Nat.mul].
  done.
Qed.

(** A record line whose date token has a month from 01 to 12 and a day
    from 01 to 31 that the month does not have (the 30th of February) is
    matched by the pattern, and then [strptime] raises its [ValueError]:
    the line is not reported with the message for lines without
    information. *)
Theorem add_line_impossible_day m y1 y2 y3 y4 m1 m2 d1 d2
  w1 t1 w2 t2 w3 t3 w4 f w5 a mid b w6 :
  Forall (λ c, is_digit c = true) [y1; y2; y3; y4; m1; m2; d1; d2] →
  1 ≤ int_of [y1; y2; y3; y4] →
  1 ≤ int_of [m1; m2] ≤ 12 →
  days_in_month (int_of [y1; y2; y3; y4]) (int_of [m1; m2])
  < int_of [d1; d2] ≤ 31 →
  blank w1 → token t1 → blank w2 → token t2 → blank w3 → token t3 →
  blank w4 → token f → blank w5 →
  not_space a = true → Forall (λ c, not_newline c = true) mid →
  not_space b = true → Forall (λ c, is_space c = true) w6 →
  add_line m
    ([y1; y2; y3; y4; "-"%char; m1; m2; "-"%char; d1; d2]
     ++ w1 ++ t1 ++ w2 ++ t2 ++ w3 ++ t3 ++ w4 ++ f ++ w5
     ++ a :: mid ++ b :: w6)
  = Raise (ValueError (txt "day is out of range for month")).
Proof.
  intros Hd Hy Hm Hday Hw1 Ht1 Hw2 Ht2 Hw3 Ht3 Hw4 Hf Hw5 Ha Hmid Hb Hw6.
  assert (28 ≤ days_in_month (int_of [y1; y2; y3; y4]) (int_of [m1; m2])).
  { unfold days_in_month. repeat case_match; lia. }
  unfold add_line.
  rewrite (record_line_groups
             [y1; y2; y3; y4; "-"%char; m1; m2; "-"%char; d1; d2]);
    try done.
  - rewrite strptime_Y_m_d_range; [|done|apply andb_true_iff; split; lia..].
    assert (valid_date (int_of [y1; y2; y3; y4]) (int_of [m1; m2])
              (int_of [d1; d2]) = false) as ->.
    { unfold valid_date. rewrite !andb_false_iff. right. lia. }
    by destruct (Z.ltb_spec (int_of [y1; y2; y3; y4]) 1); [lia|].
  - repeat (apply Forall_cons in Hd as [? Hd]). unfold is_date_token.
    repeat match goal with H : is_digit _ = true |- _ => rewrite H; clear H end.
    done.
Qed.

Lemma add_line_impossible_day_witness :
  add_line ∅ (txt "2023-02-30  x  x  x  fund.csv  Example Fund")
  = Raise (ValueError (txt "day is out of range for month")).
Proof.
  assert (Hb : blank (txt "  ")) by (split; [discriminate|repeat constructor]).
  assert (Hx : token (txt "x")) by (split; [discriminate|repeat constructor]).
  assert (Hf : token (txt "fund.csv"))
    by (split; [discriminate|repeat constructor]).
  apply (add_line_impossible_day ∅ "2" "0" "2" "3" "0" "2" "3" "0"
           (txt "  ") (txt "x") (txt "  ") (txt "x") (txt "  ") (txt "x")
           (txt "  ") (txt "fund.csv") (txt "  ")
           "E"%char (txt "xample Fun") "d"%char []);
    try done; try (vm_compute; lia); repeat constructor.
Defined.
